(** * Camera transform engine of the 3D matrices viewer

    A shallow embedding of [src/camera-matrix-tool.tsx]: the preset
    catalog, the movement composer, the React event handlers that edit the
    camera state and the per-frame animation step.

    Numbers are JavaScript numbers, i.e. IEEE 754 binary64 values, modelled
    by Rocq's primitive floats.  The React state cell [cameraState] is a
    record; [setCameraState (fun prev => ...)] is an updater
    [CameraState -> CameraState]; a handler is a function of the state its
    closure captured (named [cameraState], as in the source) that yields
    the updater it enqueues. *)

From Stdlib Require Import Floats List String Bool ZArith Lia.
Import ListNotations.

Set Warnings "-inexact-float".
Set Implicit Arguments.

Local Open Scope float_scope.

(** ** Data *)

(** [[number, number, number]] *)
Definition vec3 : Type := float * float * float.

(** [number[][]]: every matrix the program builds has four rows of four
    numbers, and is written only at indices taken from mapping over it. *)
Definition row4 : Type := float * float * float * float.
Definition matrix : Type := row4 * row4 * row4 * row4.

Definition vx (v : vec3) : float := let '(x, _, _) := v in x.
Definition vy (v : vec3) : float := let '(_, y, _) := v in y.
Definition vz (v : vec3) : float := let '(_, _, z) := v in z.

(** [v[i]] for the indices 0, 1, 2 of a triple. *)
Definition vget (v : vec3) (i : nat) : float :=
  match i with
  | 0%nat => vx v
  | 1%nat => vy v
  | _ => vz v
  end.

(** [const c = [...v]; c[i] = newVal]; [i] ranges over the indices of [v]. *)
Definition vset (v : vec3) (i : nat) (newVal : float) : vec3 :=
  let '(x, y, z) := v in
  match i with
  | 0%nat => (newVal, y, z)
  | 1%nat => (x, newVal, z)
  | 2%nat => (x, y, newVal)
  | _ => v
  end.

Definition rget (r : row4) (j : nat) : float :=
  let '(a, b, c, d) := r in
  match j with
  | 0%nat => a
  | 1%nat => b
  | 2%nat => c
  | _ => d
  end.

Definition rset (r : row4) (j : nat) (newVal : float) : row4 :=
  let '(a, b, c, d) := r in
  match j with
  | 0%nat => (newVal, b, c, d)
  | 1%nat => (a, newVal, c, d)
  | 2%nat => (a, b, newVal, d)
  | 3%nat => (a, b, c, newVal)
  | _ => r
  end.

Definition mrow (m : matrix) (i : nat) : row4 :=
  let '(r0, r1, r2, r3) := m in
  match i with
  | 0%nat => r0
  | 1%nat => r1
  | 2%nat => r2
  | _ => r3
  end.

(** [m[i][j]] *)
Definition cell (m : matrix) (i j : nat) : float := rget (mrow m i) j.

(** [const newMatrix = m.map((r) => [...r]); newMatrix[i][j] = newVal] *)
Definition mset (m : matrix) (i j : nat) (newVal : float) : matrix :=
  let '(r0, r1, r2, r3) := m in
  match i with
  | 0%nat => (rset r0 j newVal, r1, r2, r3)
  | 1%nat => (r0, rset r1 j newVal, r2, r3)
  | 2%nat => (r0, r1, rset r2 j newVal, r3)
  | 3%nat => (r0, r1, r2, rset r3 j newVal)
  | _ => m
  end.

Record Boundaries : Type := mkBoundaries {
  min : vec3;
  max : vec3
}.

Record CameraState : Type := mkCameraState {
  position : vec3;
  rotation : vec3;
  transformMatrix : matrix;
  movementMatrix : matrix;
  initialPosition : vec3;
  initialRotation : vec3;
  isAnimating : bool;
  boundaries : Boundaries
}.

(** ["translation" | "rotation" | "complex"] *)
Module Category.
Inductive t : Type := translation | rotation | complex.
End Category.

Record MovementPreset : Type := mkPreset {
  id : string;
  name : string;
  description : string;
  category : Category.t;
  conflictsWith : option (list string);
  preset_matrix : matrix
}.

(** Object spreads [{ ...prev, field: value }]. *)
Definition with_position (prev : CameraState) (p : vec3) : CameraState :=
  mkCameraState p (rotation prev) (transformMatrix prev) (movementMatrix prev)
    (initialPosition prev) (initialRotation prev) (isAnimating prev)
    (boundaries prev).

Definition with_rotation (prev : CameraState) (r : vec3) : CameraState :=
  mkCameraState (position prev) r (transformMatrix prev) (movementMatrix prev)
    (initialPosition prev) (initialRotation prev) (isAnimating prev)
    (boundaries prev).

Definition with_transformMatrix (prev : CameraState) (m : matrix)
  : CameraState :=
  mkCameraState (position prev) (rotation prev) m (movementMatrix prev)
    (initialPosition prev) (initialRotation prev) (isAnimating prev)
    (boundaries prev).

Definition with_movementMatrix (prev : CameraState) (m : matrix)
  : CameraState :=
  mkCameraState (position prev) (rotation prev) (transformMatrix prev) m
    (initialPosition prev) (initialRotation prev) (isAnimating prev)
    (boundaries prev).

Definition with_initial (prev : CameraState) (p r : vec3) : CameraState :=
  mkCameraState (position prev) (rotation prev) (transformMatrix prev)
    (movementMatrix prev) p r (isAnimating prev) (boundaries prev).

Definition with_isAnimating (prev : CameraState) (b : bool) : CameraState :=
  mkCameraState (position prev) (rotation prev) (transformMatrix prev)
    (movementMatrix prev) (initialPosition prev) (initialRotation prev) b
    (boundaries prev).

Definition with_boundaries (prev : CameraState) (b : Boundaries)
  : CameraState :=
  mkCameraState (position prev) (rotation prev) (transformMatrix prev)
    (movementMatrix prev) (initialPosition prev) (initialRotation prev)
    (isAnimating prev) b.

(** ** The three.js objects the program uses

    three.js is an external library.  [THREE.Matrix4] keeps sixteen numbers
    in column-major order ([elements]); what follows is the data movement
    and arithmetic of the methods the program calls. *)
Module THREE.

Record Matrix4 : Type := mkMatrix4 {
  e0 : float; e1 : float; e2 : float; e3 : float;
  e4 : float; e5 : float; e6 : float; e7 : float;
  e8 : float; e9 : float; e10 : float; e11 : float;
  e12 : float; e13 : float; e14 : float; e15 : float
}.

Record Quaternion : Type := mkQuaternion {
  qx : float; qy : float; qz : float; qw : float
}.

(** [new THREE.Matrix4()] *)
Definition identity : Matrix4 :=
  mkMatrix4 1 0 0 0  0 1 0 0  0 0 1 0  0 0 0 1.

(** [Matrix4.set(n11, n12, ..., n44)]: arguments in row-major order,
    stored column-major. *)
Definition set (n11 n12 n13 n14 n21 n22 n23 n24
                n31 n32 n33 n34 n41 n42 n43 n44 : float) : Matrix4 :=
  mkMatrix4 n11 n21 n31 n41  n12 n22 n32 n42
            n13 n23 n33 n43  n14 n24 n34 n44.

(** [Matrix4.toArray()] *)
Definition toArray (m : Matrix4) : list float :=
  [e0 m; e1 m; e2 m; e3 m; e4 m; e5 m; e6 m; e7 m;
   e8 m; e9 m; e10 m; e11 m; e12 m; e13 m; e14 m; e15 m].

(** [a.multiply(b)], i.e. [multiplyMatrices(a, b)]: each entry is the sum
    of four products, added left to right. *)
Definition multiply (a b : Matrix4) : Matrix4 :=
  let a11 := e0 a in let a12 := e4 a in
  let a13 := e8 a in let a14 := e12 a in
  let a21 := e1 a in let a22 := e5 a in
  let a23 := e9 a in let a24 := e13 a in
  let a31 := e2 a in let a32 := e6 a in
  let a33 := e10 a in let a34 := e14 a in
  let a41 := e3 a in let a42 := e7 a in
  let a43 := e11 a in let a44 := e15 a in
  let b11 := e0 b in let b12 := e4 b in
  let b13 := e8 b in let b14 := e12 b in
  let b21 := e1 b in let b22 := e5 b in
  let b23 := e9 b in let b24 := e13 b in
  let b31 := e2 b in let b32 := e6 b in
  let b33 := e10 b in let b34 := e14 b in
  let b41 := e3 b in let b42 := e7 b in
  let b43 := e11 b in let b44 := e15 b in
  mkMatrix4
    (a11 * b11 + a12 * b21 + a13 * b31 + a14 * b41)
    (a21 * b11 + a22 * b21 + a23 * b31 + a24 * b41)
    (a31 * b11 + a32 * b21 + a33 * b31 + a34 * b41)
    (a41 * b11 + a42 * b21 + a43 * b31 + a44 * b41)
    (a11 * b12 + a12 * b22 + a13 * b32 + a14 * b42)
    (a21 * b12 + a22 * b22 + a23 * b32 + a24 * b42)
    (a31 * b12 + a32 * b22 + a33 * b32 + a34 * b42)
    (a41 * b12 + a42 * b22 + a43 * b32 + a44 * b42)
    (a11 * b13 + a12 * b23 + a13 * b33 + a14 * b43)
    (a21 * b13 + a22 * b23 + a23 * b33 + a24 * b43)
    (a31 * b13 + a32 * b23 + a33 * b33 + a34 * b43)
    (a41 * b13 + a42 * b23 + a43 * b33 + a44 * b43)
    (a11 * b14 + a12 * b24 + a13 * b34 + a14 * b44)
    (a21 * b14 + a22 * b24 + a23 * b34 + a24 * b44)
    (a31 * b14 + a32 * b24 + a33 * b34 + a34 * b44)
    (a41 * b14 + a42 * b24 + a43 * b34 + a44 * b44).

(** [Matrix4.setPosition(v)] overwrites elements 12, 13, 14. *)
Definition setPosition (m : Matrix4) (v : vec3) : Matrix4 :=
  mkMatrix4 (e0 m) (e1 m) (e2 m) (e3 m) (e4 m) (e5 m) (e6 m) (e7 m)
            (e8 m) (e9 m) (e10 m) (e11 m) (vx v) (vy v) (vz v) (e15 m).

(** The position [Matrix4.decompose] writes: elements 12, 13, 14. *)
Definition decompose_position (m : Matrix4) : vec3 :=
  (e12 m, e13 m, e14 m).

(** The part of the library that rests on transcendental functions, whose
    values ECMAScript leaves to the implementation, and on the
    quaternion routines: kept as an interface. *)
Record Lib : Type := mkLib {
  Math_cos : float -> float;
  Math_sin : float -> float;
  (** the quaternion [Matrix4.decompose] writes *)
  decompose_quaternion : Matrix4 -> Quaternion;
  (** [new THREE.Euler().setFromQuaternion(q)], as [(x, y, z)] *)
  Euler_setFromQuaternion : Quaternion -> vec3
}.

(** [new THREE.Matrix4().makeRotationFromEuler(new THREE.Euler(x, y, z))],
    default order XYZ. *)
Definition makeRotationFromEuler (L : Lib) (euler : vec3) : Matrix4 :=
  let x := vx euler in let y := vy euler in let z := vz euler in
  let a := Math_cos L x in let b := Math_sin L x in
  let c := Math_cos L y in let d := Math_sin L y in
  let e := Math_cos L z in let f := Math_sin L z in
  let ae := a * e in let af := a * f in
  let be := b * e in let bf := b * f in
  mkMatrix4
    (c * e) (af + be * d) (bf - ae * d) 0
    (- c * f) (ae - bf * d) (be + af * d) 0
    d (- b * c) (a * c) 0
    0 0 0 1.

End THREE.

(** ** Conversions between [number[][]] and [THREE.Matrix4] *)

(** [matrixArray[k]] on the sixteen numbers of [toArray()]. *)
Definition at_ (matrixArray : list float) (k : nat) : float :=
  nth k matrixArray nan.

(** [m.set(rows[0][0], rows[0][1], ..., rows[3][3])] *)
Definition fromRows (rows : matrix) : THREE.Matrix4 :=
  THREE.set
    (cell rows 0 0) (cell rows 0 1) (cell rows 0 2) (cell rows 0 3)
    (cell rows 1 0) (cell rows 1 1) (cell rows 1 2) (cell rows 1 3)
    (cell rows 2 0) (cell rows 2 1) (cell rows 2 2) (cell rows 2 3)
    (cell rows 3 0) (cell rows 3 1) (cell rows 3 2) (cell rows 3 3).

(** [const matrixArray = m.toArray()] followed by the four-row literal
    [[matrixArray[0], matrixArray[4], matrixArray[8], matrixArray[12]], ...]. *)
Definition toRows (m : THREE.Matrix4) : matrix :=
  let matrixArray := THREE.toArray m in
  ((at_ matrixArray 0, at_ matrixArray 4, at_ matrixArray 8, at_ matrixArray 12),
   (at_ matrixArray 1, at_ matrixArray 5, at_ matrixArray 9, at_ matrixArray 13),
   (at_ matrixArray 2, at_ matrixArray 6, at_ matrixArray 10, at_ matrixArray 14),
   (at_ matrixArray 3, at_ matrixArray 7, at_ matrixArray 11, at_ matrixArray 15)).

(** ** The preset catalog *)

Local Open Scope string_scope.
Local Open Scope list_scope.

Definition IDENTITY_MATRIX : matrix :=
  ((1, 0, 0, 0),
   (0, 1, 0, 0),
   (0, 0, 1, 0),
   (0, 0, 0, 1)).

Definition MOVEMENT_PRESETS : list MovementPreset :=
  [ mkPreset "forward" "Forward" "Move forward (negative Z)"
      Category.translation (Some ["backward"])
      ((1, 0, 0, 0), (0, 1, 0, 0), (0, 0, 1, -0.02), (0, 0, 0, 1));
    mkPreset "backward" "Backward" "Move backward (positive Z)"
      Category.translation (Some ["forward"])
      ((1, 0, 0, 0), (0, 1, 0, 0), (0, 0, 1, 0.02), (0, 0, 0, 1));
    mkPreset "left" "Left" "Move left (negative X)"
      Category.translation (Some ["right"])
      ((1, 0, 0, -0.02), (0, 1, 0, 0), (0, 0, 1, 0), (0, 0, 0, 1));
    mkPreset "right" "Right" "Move right (positive X)"
      Category.translation (Some ["left"])
      ((1, 0, 0, 0.02), (0, 1, 0, 0), (0, 0, 1, 0), (0, 0, 0, 1));
    mkPreset "up" "Up" "Move up (positive Y)"
      Category.translation (Some ["down"])
      ((1, 0, 0, 0), (0, 1, 0, 0.02), (0, 0, 1, 0), (0, 0, 0, 1));
    mkPreset "down" "Down" "Move down (negative Y)"
      Category.translation (Some ["up"])
      ((1, 0, 0, 0), (0, 1, 0, -0.02), (0, 0, 1, 0), (0, 0, 0, 1));
    mkPreset "yaw-left" "Yaw Left" "Rotate left around Y-axis"
      Category.rotation (Some ["yaw-right"])
      ((0.9998, 0, 0.02, 0), (0, 1, 0, 0), (-0.02, 0, 0.9998, 0), (0, 0, 0, 1));
    mkPreset "yaw-right" "Yaw Right" "Rotate right around Y-axis"
      Category.rotation (Some ["yaw-left"])
      ((0.9998, 0, -0.02, 0), (0, 1, 0, 0), (0.02, 0, 0.9998, 0), (0, 0, 0, 1));
    mkPreset "pitch-up" "Pitch Up" "Look up around X-axis"
      Category.rotation (Some ["pitch-down"])
      ((1, 0, 0, 0), (0, 0.9998, -0.02, 0), (0, 0.02, 0.9998, 0), (0, 0, 0, 1));
    mkPreset "pitch-down" "Pitch Down" "Look down around X-axis"
      Category.rotation (Some ["pitch-up"])
      ((1, 0, 0, 0), (0, 0.9998, 0.02, 0), (0, -0.02, 0.9998, 0), (0, 0, 0, 1));
    mkPreset "spiral-up" "Spiral Up" "Rotate + move up + forward"
      Category.complex None
      ((0.999, 0, 0.045, 0), (0, 1, 0, 0.01), (-0.045, 0, 0.999, -0.01),
       (0, 0, 0, 1)) ].

(** [MOVEMENT_PRESETS.find((p) => p.id === presetId)] *)
Definition find_preset (presetId : string) : option MovementPreset :=
  find (fun p => String.eqb (id p) presetId) MOVEMENT_PRESETS.

(** ** The movement composer *)

(** [.filter(Boolean)] on the results of [find]. *)
Fixpoint filter_Boolean (A : Type) (l : list (option A)) : list A :=
  match l with
  | [] => []
  | Some a :: l' => a :: filter_Boolean l'
  | None :: l' => filter_Boolean l'
  end.

(** [selectedPresets.map((id) => MOVEMENT_PRESETS.find(...)).filter(Boolean)] *)
Definition selectedPresetObjects (selectedPresets : list string)
  : list MovementPreset :=
  filter_Boolean (map find_preset selectedPresets).

(** [const order = { translation: 0, rotation: 1, complex: 2 }] *)
Definition order (c : Category.t) : Z :=
  match c with
  | Category.translation => 0
  | Category.rotation => 1
  | Category.complex => 2
  end.

(** The comparator [(a, b) => order[a.category] - order[b.category]]. *)
Definition by_category (a b : MovementPreset) : Z :=
  (order (category a) - order (category b))%Z.

(** [Array.prototype.sort(compareFn)].  ECMAScript requires the sort to be
    stable: elements that compare equal keep their order.  Insertion from
    the right puts each element before the first one it does not exceed. *)
Fixpoint sort_insert (A : Type) (compareFn : A -> A -> Z) (x : A)
    (l : list A) : list A :=
  match l with
  | [] => [x]
  | y :: l' =>
      if (compareFn x y <=? 0)%Z then x :: y :: l'
      else y :: sort_insert compareFn x l'
  end.

Fixpoint Array_sort (A : Type) (compareFn : A -> A -> Z) (l : list A)
  : list A :=
  match l with
  | [] => []
  | x :: l' => sort_insert compareFn x (Array_sort compareFn l')
  end.

Definition sortedPresets (selectedPresets : list string)
  : list MovementPreset :=
  Array_sort by_category (selectedPresetObjects selectedPresets).

(** [sortedPresets.forEach((preset) => { presetMatrix.set(...);
    acc.multiply(presetMatrix) })] starting from [new THREE.Matrix4()]. *)
Definition multiply_all (presets : list MovementPreset) : THREE.Matrix4 :=
  fold_left
    (fun acc preset => THREE.multiply acc (fromRows (preset_matrix preset)))
    presets THREE.identity.

(** [combineSelectedPresets], with the [selectedPresets] its closure holds:
    the updater passed to [setCameraState]. *)
Definition combineSelectedPresets (selectedPresets : list string)
    (prev : CameraState) : CameraState :=
  match selectedPresets with
  | [] => with_movementMatrix prev IDENTITY_MATRIX
  | _ :: _ =>
      let combinedMatrix := multiply_all (sortedPresets selectedPresets) in
      let newMovementMatrix := toRows combinedMatrix in
      with_movementMatrix prev newMovementMatrix
  end.

(** [MatrixCalculationDisplay]: nothing is rendered for an empty selection
    ([return null]); otherwise the sorted presets and [resultMatrix]. *)
Definition MatrixCalculationDisplay (selectedPresets : list string)
  : option (list MovementPreset * matrix) :=
  match selectedPresets with
  | [] => None
  | _ :: _ =>
      let sorted := sortedPresets selectedPresets in
      let currentMatrix := multiply_all sorted in
      let resultMatrix := toRows currentMatrix in
      Some (sorted, resultMatrix)
  end.

(** [newSelection.includes(presetId)] *)
Definition includes (l : list string) (x : string) : bool :=
  existsb (String.eqb x) l.

(** [togglePreset(presetId)]: the new value of [selectedPresets]. *)
Definition togglePreset (presetId : string) (prev : list string)
  : list string :=
  match find_preset presetId with
  | None => prev
  | Some preset =>
      if includes prev presetId then
        filter (fun id' => negb (String.eqb id' presetId)) prev
      else
        let newSelection :=
          match conflictsWith preset with
          | Some conflicts =>
              filter (fun id' => negb (includes conflicts id')) prev
          | None => prev
          end in
        newSelection ++ [presetId]
  end.

(** ** React state updates

    [setCameraState((prev) => ...)] enqueues an updater.  A handler calls it
    once; some handlers also schedule [setTimeout(callback, 0)], whose
    callback calls it a second time after React has rendered the first
    update.  The callback is the function of the render in which the handler
    was created, so the [cameraState] it reads is the one the handler's
    closure holds, not the state the first update produced. *)
Definition Updater : Type := CameraState -> CameraState.

Record Dispatch : Type := mkDispatch {
  now : Updater;
  later : option Updater
}.

(** The states React renders while a dispatch runs on [s], in order. *)
Definition observable (d : Dispatch) (s : CameraState) : list CameraState :=
  match later d with
  | None => [now d s]
  | Some callback => [now d s; callback (now d s)]
  end.

(** The state once the handler and its zero-delay callback have run. *)
Definition settle (d : Dispatch) (s : CameraState) : CameraState :=
  match later d with
  | None => now d s
  | Some callback => callback (now d s)
  end.

(** A user event that may not reach any handler. *)
Definition settle_opt (d : option Dispatch) (s : CameraState) : CameraState :=
  match d with
  | None => s
  | Some d' => settle d' s
  end.

(** [x > y] *)
Definition gtb (x y : float) : bool := (y <? x)%float.

(** The [shouldReset] test of the frame callback. *)
Definition shouldReset (position : vec3) (b : Boundaries) : bool :=
  (vx position <? vget (min b) 0)%float
  || gtb (vx position) (vget (max b) 0)
  || (vy position <? vget (min b) 1)%float
  || gtb (vy position) (vget (max b) 1)
  || (vz position <? vget (min b) 2)%float
  || gtb (vz position) (vget (max b) 2).

Section Engine.

Variable L : THREE.Lib.

(** [makeRotationFromEuler(rotation)] then [setPosition(position)], read
    back as rows: the matrix the program derives from a pose. *)
Definition compose (position rotation : vec3) : matrix :=
  let matrix := THREE.makeRotationFromEuler L rotation in
  let matrix := THREE.setPosition matrix position in
  toRows matrix.

(** [updateFromMatrix].  The Euler object [rotation] is created at zero
    and only read, by [setFromEuler], to initialise a temporary quaternion;
    [decompose] writes that quaternion, and [rotation] still holds zero
    when it is stored. *)
Definition updateFromMatrix (cameraState : CameraState) : Updater :=
  let matrix := fromRows (transformMatrix cameraState) in
  let position := THREE.decompose_position matrix in
  let rotation : vec3 := (0, 0, 0)%float in
  let _quaternion := THREE.decompose_quaternion L matrix in
  fun prev => with_rotation (with_position prev position) rotation.

(** [updateFromPositionRotation] *)
Definition updateFromPositionRotation (cameraState : CameraState)
  : Updater :=
  let transformMatrix :=
    compose (position cameraState) (rotation cameraState) in
  fun prev => with_transformMatrix prev transformMatrix.

(** [resetCamera] *)
Definition resetCamera (cameraState : CameraState) : Dispatch :=
  mkDispatch
    (fun prev =>
       with_isAnimating
         (with_rotation
            (with_position prev (initialPosition prev))
            (initialRotation prev))
         false)
    (Some (fun prev =>
       with_transformMatrix prev
         (compose (initialPosition cameraState)
                  (initialRotation cameraState)))).

(** [setInitialPosition] *)
Definition setInitialPosition : Dispatch :=
  mkDispatch (fun prev => with_initial prev (position prev) (rotation prev))
             None.

(** [toggleAnimation] *)
Definition toggleAnimation : Dispatch :=
  mkDispatch (fun prev => with_isAnimating prev (negb (isAnimating prev)))
             None.

(** [clearSelection]: the camera-state half; the selection becomes [[]]. *)
Definition clearSelection : Dispatch :=
  mkDispatch (fun prev => with_movementMatrix prev IDENTITY_MATRIX) None.

(** The [onChange] handlers of the number inputs, for the input at index
    [i] (and [j]). *)
Definition position_onChange (cameraState : CameraState) (i : nat)
    (newVal : float) : Dispatch :=
  let newPos := vset (position cameraState) i newVal in
  mkDispatch (fun prev => with_position prev newPos)
             (Some (updateFromPositionRotation cameraState)).

Definition rotation_onChange (cameraState : CameraState) (i : nat)
    (newVal : float) : Dispatch :=
  let newRot := vset (rotation cameraState) i newVal in
  mkDispatch (fun prev => with_rotation prev newRot)
             (Some (updateFromPositionRotation cameraState)).

Definition transformMatrix_onChange (cameraState : CameraState) (i j : nat)
    (newVal : float) : Dispatch :=
  let newMatrix := mset (transformMatrix cameraState) i j newVal in
  mkDispatch (fun prev => with_transformMatrix prev newMatrix)
             (Some (updateFromMatrix cameraState)).

Definition movementMatrix_onChange (cameraState : CameraState) (i j : nat)
    (newVal : float) : Dispatch :=
  let newMatrix := mset (movementMatrix cameraState) i j newVal in
  mkDispatch (fun prev => with_movementMatrix prev newMatrix) None.

Definition min_onChange (cameraState : CameraState) (i : nat)
    (newVal : float) : Dispatch :=
  let newMin := vset (min (boundaries cameraState)) i newVal in
  mkDispatch
    (fun prev =>
       with_boundaries prev (mkBoundaries newMin (max (boundaries prev))))
    None.

Definition max_onChange (cameraState : CameraState) (i : nat)
    (newVal : float) : Dispatch :=
  let newMax := vset (max (boundaries cameraState)) i newVal in
  mkDispatch
    (fun prev =>
       with_boundaries prev (mkBoundaries (min (boundaries prev)) newMax))
    None.

(** [NumberInput]: [handleBlur] parses the text ([numValue] is the result
    of [Number.parseFloat]) and calls [onChange] unless it is NaN.  The
    component forwards [disabled] to the [<input>] element; a disabled
    element takes no focus, so neither blur nor key events reach
    [handleBlur]. *)
Definition handleBlur (numValue : float) (onChange : float -> Dispatch)
  : option Dispatch :=
  if is_nan numValue then None else Some (onChange numValue).

Definition NumberInput (disabled : bool) (numValue : float)
    (onChange : float -> Dispatch) : option Dispatch :=
  if disabled then None else handleBlur numValue onChange.

(** The three inputs rendered with [disabled={cameraState.isAnimating}]. *)
Definition position_input (cameraState : CameraState) (i : nat)
    (numValue : float) : option Dispatch :=
  NumberInput (isAnimating cameraState) numValue
    (position_onChange cameraState i).

Definition rotation_input (cameraState : CameraState) (i : nat)
    (numValue : float) : option Dispatch :=
  NumberInput (isAnimating cameraState) numValue
    (rotation_onChange cameraState i).

Definition transformMatrix_input (cameraState : CameraState) (i j : nat)
    (numValue : float) : option Dispatch :=
  NumberInput (isAnimating cameraState) numValue
    (transformMatrix_onChange cameraState i j).

(** [currentMatrix.multiply(movementMatrix)] of the frame callback. *)
Definition nextMatrix (cameraState : CameraState) : THREE.Matrix4 :=
  THREE.multiply (fromRows (transformMatrix cameraState))
                 (fromRows (movementMatrix cameraState)).

(** The [useFrame] callback of [MainCameraView]: the updater it passes to
    [setCameraState]; when [cameraState.isAnimating] is false it makes no
    call and the state stays as it is. *)
Definition useFrame (cameraState : CameraState) : Updater :=
  if isAnimating cameraState then
    let currentMatrix := nextMatrix cameraState in
    let position := THREE.decompose_position currentMatrix in
    let quaternion := THREE.decompose_quaternion L currentMatrix in
    let rotation := THREE.Euler_setFromQuaternion L quaternion in
    if shouldReset position (boundaries cameraState) then
      fun prev =>
        with_rotation (with_position prev (initialPosition prev))
                      (initialRotation prev)
    else
      let newTransformMatrix := toRows currentMatrix in
      fun prev =>
        with_transformMatrix
          (with_rotation (with_position prev position) rotation)
          newTransformMatrix
  else fun prev => prev.

(** One frame on a state React has rendered. *)
Definition animationStep (s : CameraState) : CameraState := useFrame s s.

End Engine.

(** ** Concrete states and a library instance *)

(** The state [useState] starts from. *)
Definition initialCameraState : CameraState :=
  mkCameraState
    (1.0, 2.0, 6.0) (0, 0, 0)
    ((1, 0, 0, 1.0), (0, 1, 0, 2.0), (0, 0, 1, 6.0), (0, 0, 0, 1))
    IDENTITY_MATRIX
    (1.0, 2.0, 6.0) (0, 0, 0)
    false
    (mkBoundaries (-8, 0.5, -8) (8, 6, 8)).

(** An instance of the library interface on which the model can be run:
    at every argument, the values the library returns for an unrotated
    camera (cosine 1, sine 0, the identity quaternion, zero angles).  The
    theorems quantify over every instance; this one instantiates their
    examples, which state nothing about a rotation other than zero. *)
Definition unrotated : THREE.Lib :=
  THREE.mkLib (fun _ => 1) (fun _ => 0)
    (fun _ => THREE.mkQuaternion 0 0 0 1)
    (fun _ => (0, 0, 0)).

(** A translation by [(x, y, z)] as rows. *)
Definition translate (x y z : float) : matrix :=
  ((1, 0, 0, x), (0, 1, 0, y), (0, 0, 1, z), (0, 0, 0, 1)).

(** Animating at [(8, 2, 0)] with a movement of [0.5] along X: the next
    position is [(8.5, 2, 0)], outside the default box. *)
Definition leavingState : CameraState :=
  mkCameraState
    (8, 2, 0) (0, 0, 0) (translate 8 2 0) (translate 0.5 0 0)
    (1.0, 2.0, 6.0) (0, 0, 0) true
    (mkBoundaries (-8, 0.5, -8) (8, 6, 8)).

(** Animating at [(7.5, 2, 0)] with the same movement: the next position is
    [(8, 2, 0)], on the face [x = max[0]] of the box. *)
Definition touchingState : CameraState :=
  mkCameraState
    (7.5, 2, 0) (0, 0, 0) (translate 7.5 2 0) (translate 0.5 0 0)
    (1.0, 2.0, 6.0) (0, 0, 0) true
    (mkBoundaries (-8, 0.5, -8) (8, 6, 8)).

(** ** Predicates of the specification *)

(** Coordinate [i] of [p] lies outside [[min[i], max[i]]]. *)
Definition outside (p : vec3) (b : Boundaries) (i : nat) : Prop :=
  (vget p i <? vget (min b) i)%float = true
  \/ gtb (vget p i) (vget (max b) i) = true.

(** Coordinate [i] of [p] lies in the closed interval [[min[i], max[i]]]. *)
Definition within (p : vec3) (b : Boundaries) (i : nat) : Prop :=
  (vget (min b) i <=? vget p i)%float = true
  /\ (vget p i <=? vget (max b) i)%float = true.

(** The box is inverted on axis [i]: [min[i] > max[i]]. *)
Definition degenerate (b : Boundaries) (i : nat) : Prop :=
  gtb (vget (min b) i) (vget (max b) i) = true.

(** The pose the frame callback restores on leaving the box. *)
Definition restored (s : CameraState) : CameraState :=
  with_rotation (with_position s (initialPosition s)) (initialRotation s).

(** ** The order of binary64 values

    [SFcompare] orders the values that are not NaN by sign class, then by
    exponent and mantissa; [key] maps a value to a triple of integers on
    which that order is the lexicographic one. *)
Module FloatOrder.

Definition key (f : spec_float) : Z * Z * Z :=
  match f with
  | S754_infinity true => (-2, 0, 0)%Z
  | S754_finite true m e => (-1, - e, Z.neg m)%Z
  | S754_zero _ => (0, 0, 0)%Z
  | S754_nan => (0, 0, 0)%Z
  | S754_finite false m e => (1, e, Z.pos m)%Z
  | S754_infinity false => (2, 0, 0)%Z
  end.

Definition lex_lt (k1 k2 : Z * Z * Z) : Prop :=
  let '(a1, b1, c1) := k1 in
  let '(a2, b2, c2) := k2 in
  (a1 < a2 \/ (a1 = a2 /\ (b1 < b2 \/ (b1 = b2 /\ c1 < c2))))%Z.

Definition number (f : spec_float) : Prop := f <> S754_nan.

End FloatOrder.

(** ** Synchronisation of the pose and the transform matrix

    Numbers are compared as JavaScript's [===] compares them. *)
Definition num_eqb (x y : float) : bool := (x =? y)%float.

Definition vec_eqb (u v : vec3) : bool :=
  num_eqb (vx u) (vx v) && num_eqb (vy u) (vy v) && num_eqb (vz u) (vz v).

(** The translation column of a matrix. *)
Definition translation_column (m : matrix) : vec3 :=
  (cell m 0 3, cell m 1 3, cell m 2 3).

(** Equality of the upper-left 3x3 blocks. *)
Definition rotation_block_eqb (m n : matrix) : bool :=
  forallb
    (fun i => forallb (fun j => num_eqb (cell m i j) (cell n i j))
                      [0; 1; 2]%nat)
    [0; 1; 2]%nat.

(** [position] is the translation column of [transformMatrix], and the
    pose composes to a matrix with the rotation block of
    [transformMatrix]. *)
Definition synchronizedb (L : THREE.Lib) (s : CameraState) : bool :=
  vec_eqb (position s) (translation_column (transformMatrix s))
  && rotation_block_eqb (compose L (position s) (rotation s))
                        (transformMatrix s).

(** A degenerate box and a transform matrix whose top-left cell is
    [Infinity] (accepted by [Number.parseFloat]): the next position has
    [Infinity * 0], i.e. NaN, as its X coordinate. *)
Definition nanState : CameraState :=
  mkCameraState
    (1.0, 2.0, 6.0) (0, 0, 0)
    ((infinity, 0, 0, 1.0), (0, 1, 0, 2.0), (0, 0, 1, 6.0), (0, 0, 0, 1))
    IDENTITY_MATRIX
    (1.0, 2.0, 6.0) (0, 0, 0) true
    (mkBoundaries (8, 0.5, -8) (-8, 6, 8)).

(** The initial pose, animating, in a box inverted on the X axis. *)
Definition invertedBoxState : CameraState :=
  with_isAnimating
    (with_boundaries initialCameraState
       (mkBoundaries (8, 0.5, -8) (-8, 6, 8)))
    true.

(** ** Vocabulary of the composer properties *)

Module CategoryDec.
Definition eqb (a b : Category.t) : bool :=
  match a, b with
  | Category.translation, Category.translation => true
  | Category.rotation, Category.rotation => true
  | Category.complex, Category.complex => true
  | _, _ => false
  end.
End CategoryDec.

(** The presets of [l] whose category is [c], in the order of [l]. *)
Definition of_category (c : Category.t) (l : list MovementPreset)
  : list MovementPreset :=
  filter (fun p => CategoryDec.eqb (category p) c) l.

(** Selections made by a sequence of [togglePreset] calls from [[]]. *)
Definition toggles (presetIds : list string) : list string :=
  fold_left (fun selection presetId => togglePreset presetId selection)
            presetIds [].

(** The ids the preset [presetId] lists in [conflictsWith]. *)
Definition conflictsOf (presetId : string) : list string :=
  match find_preset presetId with
  | Some preset =>
      match conflictsWith preset with
      | Some conflicts => conflicts
      | None => []
      end
  | None => []
  end.

(** No selected preset lists another selected preset as a conflict. *)
Definition conflict_free (selection : list string) : Prop :=
  forall a b, In a selection -> In b selection -> ~ In b (conflictsOf a).

(** The invariant of the selection: only catalog ids, no conflicts. *)
Definition selection_ok (selection : list string) : Prop :=
  (forall a, In a selection -> find_preset a <> None)
  /\ conflict_free selection.

(** ** Vocabulary of the further properties *)

(** The catalog preset with id [presetId] exists and has category [c]. *)
Definition has_category (c : Category.t) (presetId : string) : bool :=
  match find_preset presetId with
  | Some preset => CategoryDec.eqb (category preset) c
  | None => false
  end.

(** The selected ids of category [c], in selection order. *)
Definition selected_of (c : Category.t) (selection : list string)
  : list string :=
  filter (has_category c) selection.

(** The ids of the catalog presets of category [c], in catalog order. *)
Definition catalog_ids (c : Category.t) : list string :=
  map id (of_category c MOVEMENT_PRESETS).

Definition selection_eqb (a b : list string) : bool :=
  if list_eq_dec String.string_dec a b then true else false.

Definition selection_mem (l : list string) (E : list (list string)) : bool :=
  existsb (selection_eqb l) E.

(** The selections obtained from those of [E] by at most [rounds] rounds
    of toggling one of [presetIds]. *)
Fixpoint grow (rounds : nat) (presetIds : list string)
    (E : list (list string)) : list (list string) :=
  match rounds with
  | O => E
  | S rounds' =>
      let next :=
        flat_map (fun l => map (fun p => togglePreset p l) presetIds) E in
      grow rounds' presetIds
        (fold_left
           (fun acc l => if selection_mem l acc then acc else acc ++ [l])
           next E)
  end.

(** Every selection of presets of category [c] alone that toggling can
    produce (see [reachable_of_closed]). *)
Definition reachable_of (c : Category.t) : list (list string) :=
  grow 4 (catalog_ids c) [[]].

(** [E] is closed under toggling any of [presetIds]. *)
Definition closedb (presetIds : list string) (E : list (list string))
  : bool :=
  forallb
    (fun l => forallb (fun p => selection_mem (togglePreset p l) E) presetIds)
    E.

(** The translation ids of [l] listed in catalog order. *)
Definition catalog_order (l : list string) : list string :=
  filter (includes l) (catalog_ids Category.translation).

(** [n] consecutive frames, each on the state the previous one left. *)
Definition frames (L : THREE.Lib) (n : nat) (s : CameraState)
  : CameraState :=
  Nat.iter n (animationStep L) s.

(** The number inputs that are rendered without [disabled]. *)
Definition movementMatrix_input (cameraState : CameraState) (i j : nat)
    (numValue : float) : option Dispatch :=
  NumberInput false numValue (movementMatrix_onChange cameraState i j).

Definition min_input (cameraState : CameraState) (i : nat)
    (numValue : float) : option Dispatch :=
  NumberInput false numValue (min_onChange cameraState i).

Definition max_input (cameraState : CameraState) (i : nat)
    (numValue : float) : option Dispatch :=
  NumberInput false numValue (max_onChange cameraState i).

(** Bitwise equality of two [Matrix4] values. *)
Definition Matrix4_eqb (a b : THREE.Matrix4) : bool :=
  forallb (fun xy => PrimFloat.Leibniz.eqb (fst xy) (snd xy))
          (combine (THREE.toArray a) (THREE.toArray b)).

(** The id is in the catalog. *)
Definition known (presetId : string) : bool :=
  match find_preset presetId with Some _ => true | None => false end.

(** * The order of binary64 values: facts *)
Module FloatOrderFacts.
Import FloatOrder.

Ltac by_compare :=
  match goal with
  | |- context [Z.compare ?e1 ?e2] =>
      match goal with
      | |- context [PosDef.Pos.compare_cont Eq ?m1 ?m2] =>
          destruct (Z.compare_spec e1 e2);
          change (PosDef.Pos.compare_cont Eq m1 m2) with (Pos.compare m1 m2);
          try destruct (Pos.compare_spec m1 m2); cbn
      end
  end.

Lemma SFltb_key f1 f2 :
  number f1 -> number f2 ->
  (SFltb f1 f2 = true <-> lex_lt (key f1) (key f2)).
Proof.
  unfold number, SFltb.
  destruct f1 as [s1 | s1 | | s1 m1 e1], f2 as [s2 | s2 | | s2 m2 e2];
    intros H1 H2; try congruence; clear H1 H2;
    try destruct s1; try destruct s2; cbn;
    try (split; [discriminate | lia]);
    try (split; [reflexivity | lia]);
    try (split; [lia | reflexivity]);
    by_compare;
    split; try discriminate; try reflexivity; lia.
Qed.

Lemma SFleb_key f1 f2 :
  number f1 -> number f2 ->
  SFleb f1 f2 = true -> ~ lex_lt (key f2) (key f1).
Proof.
  unfold number, SFleb.
  destruct f1 as [s1 | s1 | | s1 m1 e1], f2 as [s2 | s2 | | s2 m2 e2];
    intros H1 H2; try congruence; clear H1 H2;
    try destruct s1; try destruct s2; cbn;
    try discriminate; try lia;
    by_compare; try discriminate; lia.
Qed.

Lemma ltb_number x y :
  (x <? y)%float = true -> number (Prim2SF x) /\ number (Prim2SF y).
Proof.
  rewrite FloatAxioms.ltb_spec. unfold SFltb, number.
  destruct (Prim2SF x), (Prim2SF y); cbn; intros H;
    try discriminate; split; discriminate.
Qed.

Lemma leb_number x y :
  (x <=? y)%float = true -> number (Prim2SF x) /\ number (Prim2SF y).
Proof.
  rewrite FloatAxioms.leb_spec. unfold SFleb, number.
  destruct (Prim2SF x), (Prim2SF y); cbn; intros H;
    try discriminate; split; discriminate.
Qed.

Lemma is_nan_number x : is_nan x = false -> number (Prim2SF x).
Proof.
  unfold is_nan, number. rewrite FloatAxioms.eqb_spec. unfold SFeqb.
  destruct (Prim2SF x); cbn; intros H; discriminate.
Qed.

(** [a <= b] excludes [b < a]. *)
Lemma leb_not_ltb a b : (a <=? b)%float = true -> (b <? a)%float = false.
Proof.
  intros Hle. destruct (leb_number Hle) as [Ha Hb].
  rewrite FloatAxioms.leb_spec in Hle. apply (SFleb_key Ha Hb) in Hle.
  destruct (b <? a)%float eqn:Hlt; [ | reflexivity ].
  rewrite FloatAxioms.ltb_spec in Hlt. apply (SFltb_key Hb Ha) in Hlt. contradiction.
Qed.

(** When [hi < lo], every number is below [lo] or above [hi]. *)
Lemma ltb_cover lo hi x :
  (hi <? lo)%float = true -> is_nan x = false ->
  (x <? lo)%float = true \/ (hi <? x)%float = true.
Proof.
  intros Hinv Hx. destruct (ltb_number Hinv) as [Hhi Hlo].
  apply is_nan_number in Hx.
  rewrite FloatAxioms.ltb_spec in Hinv. apply (SFltb_key Hhi Hlo) in Hinv.
  rewrite !FloatAxioms.ltb_spec.
  rewrite (SFltb_key Hx Hlo), (SFltb_key Hhi Hx).
  revert Hinv. unfold lex_lt.
  destruct (key (Prim2SF hi)) as [[a1 b1] c1].
  destruct (key (Prim2SF lo)) as [[a2 b2] c2].
  destruct (key (Prim2SF x)) as [[a3 b3] c3]. lia.
Qed.

End FloatOrderFacts.

(** * Properties of the frame callback *)

Lemma shouldReset_outside (p : vec3) (b : Boundaries) (i : nat) :
  (i < 3)%nat -> outside p b i -> shouldReset p b = true.
Proof.
  intros Hi H. unfold outside in H. unfold shouldReset.
  destruct i as [ | [ | [ | i ] ] ]; try lia;
    cbn [vget] in *; destruct H as [H | H]; rewrite H;
    rewrite ?orb_true_r; reflexivity.
Qed.

Lemma shouldReset_within (p : vec3) (b : Boundaries) :
  (forall i, (i < 3)%nat -> within p b i) -> shouldReset p b = false.
Proof.
  intros H.
  destruct (H 0%nat ltac:(lia)) as [Hx1 Hx2].
  destruct (H 1%nat ltac:(lia)) as [Hy1 Hy2].
  destruct (H 2%nat ltac:(lia)) as [Hz1 Hz2].
  unfold shouldReset, gtb. cbn [vget] in *.
  rewrite (FloatOrderFacts.leb_not_ltb Hx1), (FloatOrderFacts.leb_not_ltb Hx2).
  rewrite (FloatOrderFacts.leb_not_ltb Hy1), (FloatOrderFacts.leb_not_ltb Hy2).
  rewrite (FloatOrderFacts.leb_not_ltb Hz1), (FloatOrderFacts.leb_not_ltb Hz2).
  reflexivity.
Qed.

Lemma useFrame_reset (L : THREE.Lib) (s : CameraState) :
  isAnimating s = true ->
  shouldReset (THREE.decompose_position (nextMatrix s)) (boundaries s) = true ->
  animationStep L s = restored s.
Proof.
  intros Ha Hr. unfold animationStep, useFrame. rewrite Ha, Hr. reflexivity.
Qed.

Lemma useFrame_commit (L : THREE.Lib) (s : CameraState) :
  isAnimating s = true ->
  shouldReset (THREE.decompose_position (nextMatrix s)) (boundaries s) = false ->
  animationStep L s =
    with_transformMatrix
      (with_rotation
         (with_position s (THREE.decompose_position (nextMatrix s)))
         (THREE.Euler_setFromQuaternion L
            (THREE.decompose_quaternion L (nextMatrix s))))
      (toRows (nextMatrix s)).
Proof.
  intros Ha Hr. unfold animationStep, useFrame. rewrite Ha, Hr. reflexivity.
Qed.

(** C2. While animating, if some coordinate of the position decomposed from
    [multiply(transformMatrix, movementMatrix)] lies outside the box, the
    step does not commit that matrix: the position becomes
    [initialPosition], the rotation [initialRotation], every other field
    (in particular [isAnimating] and [transformMatrix]) stays as it was.
    The updater does so on whatever state it is applied to. *)
Theorem useFrame_out_of_bounds (L : THREE.Lib) (s : CameraState) (i : nat) :
  isAnimating s = true ->
  (i < 3)%nat ->
  outside (THREE.decompose_position (nextMatrix s)) (boundaries s) i ->
  (forall prev, useFrame L s prev = restored prev)
  /\ animationStep L s = restored s
  /\ position (animationStep L s) = initialPosition s
  /\ rotation (animationStep L s) = initialRotation s
  /\ isAnimating (animationStep L s) = true
  /\ transformMatrix (animationStep L s) = transformMatrix s.
Proof.
  intros Ha Hi Hout.
  pose proof (shouldReset_outside Hi Hout) as Hr.
  assert (Hupd : forall prev, useFrame L s prev = restored prev).
  { intros prev. unfold useFrame. rewrite Ha, Hr. reflexivity. }
  split; [ exact Hupd | ].
  unfold animationStep. rewrite Hupd. unfold restored. simpl. auto.
Qed.

Lemma useFrame_out_of_bounds_example :
  THREE.decompose_position (nextMatrix leavingState) = (8.5, 2, 0)%float
  /\ animationStep unrotated leavingState = restored leavingState
  /\ position (animationStep unrotated leavingState) = (1.0, 2.0, 6.0)%float.
Proof.
  split; [ reflexivity | ].
  destruct (@useFrame_out_of_bounds unrotated leavingState 0)
    as (_ & Hstep & Hpos & _).
  - reflexivity.
  - lia.
  - right. reflexivity.
  - split; [ exact Hstep | exact Hpos ].
Defined.

(** C10. While animating, if every coordinate of the decomposed next
    position lies in the closed interval between its bounds (the bounds
    included), the step commits: [transformMatrix] becomes the product, and
    [position] and [rotation] its decomposition. *)
Theorem useFrame_within_bounds (L : THREE.Lib) (s : CameraState) :
  isAnimating s = true ->
  (forall i, (i < 3)%nat ->
     within (THREE.decompose_position (nextMatrix s)) (boundaries s) i) ->
  transformMatrix (animationStep L s) = toRows (nextMatrix s)
  /\ position (animationStep L s) = THREE.decompose_position (nextMatrix s)
  /\ rotation (animationStep L s) =
       THREE.Euler_setFromQuaternion L
         (THREE.decompose_quaternion L (nextMatrix s))
  /\ animationStep L s =
       with_transformMatrix
         (with_rotation
            (with_position s (THREE.decompose_position (nextMatrix s)))
            (THREE.Euler_setFromQuaternion L
               (THREE.decompose_quaternion L (nextMatrix s))))
         (toRows (nextMatrix s)).
Proof.
  intros Ha Hin.
  rewrite (useFrame_commit L s Ha (shouldReset_within Hin)).
  simpl. auto.
Qed.

Lemma useFrame_within_bounds_example :
  THREE.decompose_position (nextMatrix touchingState) = (8, 2, 0)%float
  /\ position (animationStep unrotated touchingState) = (8, 2, 0)%float
  /\ transformMatrix (animationStep unrotated touchingState) = translate 8 2 0.
Proof.
  split; [ reflexivity | ].
  destruct (@useFrame_within_bounds unrotated touchingState)
    as (Hm & Hp & _).
  - reflexivity.
  - intros [ | [ | [ | i ] ] ] Hi; try lia; split; reflexivity.
  - split; [ exact Hp | exact Hm ].
Defined.

(** C9, as the code has it.  While animating in a box inverted on axis [i]
    ([min[i] > max[i]]), the boundary check is true and the step restores
    the initial pose without committing the product, whenever coordinate
    [i] of the decomposed next position is a number (not NaN). *)
Theorem useFrame_degenerate_box (L : THREE.Lib) (s : CameraState) (i : nat) :
  isAnimating s = true ->
  (i < 3)%nat ->
  degenerate (boundaries s) i ->
  is_nan (vget (THREE.decompose_position (nextMatrix s)) i) = false ->
  shouldReset (THREE.decompose_position (nextMatrix s)) (boundaries s) = true
  /\ animationStep L s = restored s
  /\ transformMatrix (animationStep L s) = transformMatrix s.
Proof.
  intros Ha Hi Hdeg Hnum.
  assert (Hr : shouldReset (THREE.decompose_position (nextMatrix s))
                 (boundaries s) = true).
  { apply (@shouldReset_outside _ _ i Hi).
    unfold degenerate, gtb in Hdeg. unfold outside, gtb.
    exact (FloatOrderFacts.ltb_cover _ Hdeg Hnum). }
  split; [ exact Hr | ].
  rewrite (useFrame_reset L s Ha Hr). split; reflexivity.
Qed.

Lemma useFrame_degenerate_box_example :
  degenerate (boundaries invertedBoxState) 0
  /\ animationStep unrotated invertedBoxState = restored invertedBoxState.
Proof.
  split; [ reflexivity | ].
  destruct (@useFrame_degenerate_box unrotated invertedBoxState 0)
    as (_ & Hstep & _).
  - reflexivity.
  - lia.
  - reflexivity.
  - reflexivity.
  - exact Hstep.
Defined.

(** C9 as stated fails on a NaN coordinate: both comparisons of the check
    are false for it, so the step commits even in an inverted box. *)
Lemma useFrame_degenerate_box_nan :
  isAnimating nanState = true
  /\ degenerate (boundaries nanState) 0
  /\ is_nan (vx (THREE.decompose_position (nextMatrix nanState))) = true
  /\ shouldReset (THREE.decompose_position (nextMatrix nanState))
       (boundaries nanState) = false
  /\ transformMatrix (animationStep unrotated nanState)
     = toRows (nextMatrix nanState)
  /\ animationStep unrotated nanState <> restored nanState.
Proof.
  repeat split; try reflexivity.
  intros H. apply (f_equal (fun s => is_nan (vx (position s)))) in H.
  vm_compute in H. discriminate.
Qed.

(** C1 on the out-of-bounds branch.  The state [leavingState] is
    synchronised; after one frame the position is [initialPosition] while
    [transformMatrix] still holds the translation [(8, 2, 0)], so the two
    disagree, and every later frame repeats the same reset. *)
Theorem useFrame_reset_breaks_synchronisation (L : THREE.Lib) :
  synchronizedb unrotated leavingState = true
  /\ position (animationStep L leavingState) = (1.0, 2.0, 6.0)%float
  /\ translation_column (transformMatrix (animationStep L leavingState))
     = (8, 2, 0)%float
  /\ synchronizedb L (animationStep L leavingState) = false
  /\ animationStep L (animationStep L leavingState)
     = animationStep L leavingState.
Proof.
  assert (H : animationStep L leavingState = restored leavingState).
  { apply useFrame_reset; reflexivity. }
  split; [ reflexivity | ].
  rewrite H.
  split; [ reflexivity | ].
  split; [ reflexivity | ].
  split; [ reflexivity | ].
  transitivity (restored (restored leavingState)); [ | reflexivity ].
  apply useFrame_reset; reflexivity.
Qed.

(** * Properties of the handlers *)

(** What the edit handlers leave behind once their callback has run on
    the state [s] they were rendered with.  The callback reads the pose or
    matrix of the handler's closure, i.e. the value before the edit. *)
Lemma position_onChange_settle (L : THREE.Lib) (s : CameraState) (i : nat)
    (newVal : float) :
  settle (position_onChange L s i newVal) s
  = with_transformMatrix
      (with_position s (vset (position s) i newVal))
      (compose L (position s) (rotation s)).
Proof. reflexivity. Qed.

Lemma rotation_onChange_settle (L : THREE.Lib) (s : CameraState) (i : nat)
    (newVal : float) :
  settle (rotation_onChange L s i newVal) s
  = with_transformMatrix
      (with_rotation s (vset (rotation s) i newVal))
      (compose L (position s) (rotation s)).
Proof. reflexivity. Qed.

Lemma transformMatrix_onChange_settle (L : THREE.Lib) (s : CameraState)
    (i j : nat) (newVal : float) :
  settle (transformMatrix_onChange L s i j newVal) s
  = with_rotation
      (with_position
         (with_transformMatrix s (mset (transformMatrix s) i j newVal))
         (translation_column (transformMatrix s)))
      (0, 0, 0)%float.
Proof. reflexivity. Qed.

(** C3, as the code has it.  [resetCamera] ends in the state whose position
    and rotation are the initial ones, whose [isAnimating] is false and
    whose [transformMatrix] is composed from the initial pose; a second
    call leaves that state as it is.  The transition takes two updates:
    the first one is rendered with the previous [transformMatrix]. *)
Theorem resetCamera_settles (L : THREE.Lib) (s : CameraState) :
  let mid := with_isAnimating (restored s) false in
  let final := settle (resetCamera L s) s in
  observable (resetCamera L s) s = [mid; final]
  /\ transformMatrix mid = transformMatrix s
  /\ final = with_transformMatrix mid
               (compose L (initialPosition s) (initialRotation s))
  /\ position final = initialPosition s
  /\ rotation final = initialRotation s
  /\ isAnimating final = false
  /\ transformMatrix final
     = compose L (initialPosition s) (initialRotation s)
  /\ settle (resetCamera L final) final = final.
Proof.
  intros mid final. unfold final, settle, observable, resetCamera.
  cbn [later now]. unfold mid, restored.
  destruct s as [p r tm mm ip ir a b]. cbn.
  repeat (split; [ reflexivity | ]). reflexivity.
Qed.

(** C3 as stated fails on atomicity: the first state rendered by
    [resetCamera] on [leavingState] has the initial position and the
    translation column of the old matrix. *)
Lemma resetCamera_intermediate_state :
  exists mid,
    hd_error (observable (resetCamera unrotated leavingState) leavingState)
    = Some mid
    /\ position mid = (1.0, 2.0, 6.0)%float
    /\ translation_column (transformMatrix mid) = (8, 2, 0)%float
    /\ synchronizedb unrotated mid = false
    /\ synchronizedb unrotated
         (settle (resetCamera unrotated leavingState) leavingState) = true.
Proof.
  eexists. split; [ reflexivity | ].
  repeat (split; [ reflexivity | ]). reflexivity.
Qed.

(** C4, as the code has it.  While [isAnimating] is true the position,
    rotation and transform-matrix inputs are disabled: an entry made in
    them reaches no handler and leaves the whole state as it is. *)
Theorem inputs_disabled_while_animating (L : THREE.Lib) (s : CameraState)
    (i j : nat) (numValue : float) :
  isAnimating s = true ->
  position_input L s i numValue = None
  /\ rotation_input L s i numValue = None
  /\ transformMatrix_input L s i j numValue = None
  /\ settle_opt (position_input L s i numValue) s = s
  /\ settle_opt (rotation_input L s i numValue) s = s
  /\ settle_opt (transformMatrix_input L s i j numValue) s = s.
Proof.
  intros Ha.
  unfold position_input, rotation_input, transformMatrix_input, NumberInput.
  rewrite Ha. cbn [settle_opt]. auto 7.
Qed.

Lemma inputs_disabled_while_animating_example :
  isAnimating leavingState = true
  /\ settle_opt (position_input unrotated leavingState 0 5) leavingState
     = leavingState.
Proof.
  split; [ reflexivity | ].
  destruct (@inputs_disabled_while_animating unrotated leavingState 0 0 5)
    as (_ & _ & _ & H & _).
  - reflexivity.
  - exact H.
Defined.

(** C4 as stated fails on the handlers themselves: they test nothing, and
    called on an animating state they write the new value. *)
Lemma onChange_not_guarded :
  isAnimating leavingState = true
  /\ position (settle (position_onChange unrotated leavingState 0 5)
                      leavingState) = (5, 2, 0)%float
  /\ rotation (settle (rotation_onChange unrotated leavingState 0 5)
                      leavingState) = (5, 0, 0)%float
  /\ cell (transformMatrix
             (settle (transformMatrix_onChange unrotated leavingState 0 3 5)
                     leavingState)) 0 3 = 5%float
  /\ settle (position_onChange unrotated leavingState 0 5) leavingState
     <> leavingState.
Proof.
  repeat (split; [ reflexivity | ]).
  intros H. apply (f_equal (fun s => num_eqb (vx (position s)) 5)) in H.
  vm_compute in H. discriminate.
Qed.

(** With the values ECMAScript fixes for [Math.cos(0)] and [Math.sin(0)],
    a pose without rotation composes to a matrix whose rotation block is
    the identity (as numbers: two of its zeros are negative zeros). *)
Lemma compose_zero_rotation (L : THREE.Lib) (p : vec3) :
  THREE.Math_cos L 0 = 1%float ->
  THREE.Math_sin L 0 = 0%float ->
  rotation_block_eqb (compose L p (0, 0, 0)%float) IDENTITY_MATRIX = true
  /\ translation_column (compose L p (0, 0, 0)%float) = p.
Proof.
  intros Hc Hs. destruct p as [[x y] z].
  unfold compose, THREE.makeRotationFromEuler. cbn [vx vy vz].
  rewrite Hc, Hs. split; reflexivity.
Qed.

(** C7 on the code.  [updateFromMatrix] applied to the matrix composed
    from [p] and [r] returns [p] itself as the position and zero as the
    rotation, whatever [r] was: composing the result again gives the
    matrix of [p] with no rotation. *)
Theorem updateFromMatrix_drops_rotation (L : THREE.Lib) (p r : vec3)
    (prev : CameraState) :
  let composed := with_transformMatrix prev (compose L p r) in
  let decomposed := updateFromMatrix L composed prev in
  position decomposed = p
  /\ rotation decomposed = (0, 0, 0)%float
  /\ compose L (position decomposed) (rotation decomposed)
     = compose L p (0, 0, 0)%float.
Proof.
  intros composed decomposed.
  assert (Hp : position decomposed = p).
  { unfold decomposed, composed, updateFromMatrix.
    destruct p as [[x y] z]. reflexivity. }
  assert (Hr : rotation decomposed = (0, 0, 0)%float) by reflexivity.
  rewrite Hp, Hr. auto.
Qed.

(** * Properties of the movement composer *)

Section StableSort.

Variable A : Type.
Variable compareFn : A -> A -> Z.

Lemma sort_insert_front (x : A) (l : list A) :
  Forall (fun y => (compareFn x y <= 0)%Z) l ->
  sort_insert compareFn x l = x :: l.
Proof.
  intros H. destruct l as [ | y l ]; [ reflexivity | ].
  inversion H as [ | ? ? Hy _ ]; subst. cbn.
  apply Z.leb_le in Hy. rewrite Hy. reflexivity.
Qed.

Lemma sort_insert_skip (x : A) (l1 l2 : list A) :
  Forall (fun y => (0 < compareFn x y)%Z) l1 ->
  sort_insert compareFn x (l1 ++ l2) = l1 ++ sort_insert compareFn x l2.
Proof.
  induction 1 as [ | y l1 Hy _ IH ]; [ reflexivity | ].
  cbn. apply Z.leb_gt in Hy. rewrite Hy, IH. reflexivity.
Qed.

End StableSort.

Lemma of_category_Forall (c : Category.t) (l : list MovementPreset) :
  Forall (fun p => category p = c) (of_category c l).
Proof.
  apply Forall_forall. intros p Hp. apply filter_In in Hp.
  destruct Hp as [_ Hp]. destruct (category p), c; now try discriminate.
Qed.

(** Sorting by category rank lists the translations, then the rotations,
    then the complex presets, each group in its original order. *)
Lemma Array_sort_by_category (l : list MovementPreset) :
  Array_sort by_category l
  = of_category Category.translation l
    ++ of_category Category.rotation l
    ++ of_category Category.complex l.
Proof.
  induction l as [ | x l IH ]; [ reflexivity | ].
  cbn [Array_sort]. rewrite IH. clear IH.
  pose proof (of_category_Forall Category.translation l) as HT.
  pose proof (of_category_Forall Category.rotation l) as HR.
  pose proof (of_category_Forall Category.complex l) as HC.
  unfold of_category at 4 5 6. cbn [filter].
  fold (of_category Category.translation l).
  fold (of_category Category.rotation l).
  fold (of_category Category.complex l).
  destruct (category x) eqn:Hx; cbn [CategoryDec.eqb].
  - apply sort_insert_front.
    rewrite !Forall_app. repeat split;
      eapply Forall_impl; try eassumption;
      cbn; intros p Hp; unfold by_category; rewrite Hx, Hp; cbn; lia.
  - rewrite sort_insert_skip.
    + f_equal. cbn [app]. apply sort_insert_front.
      rewrite !Forall_app. split;
        eapply Forall_impl; try eassumption;
        cbn; intros p Hp; unfold by_category; rewrite Hx, Hp; cbn; lia.
    + eapply Forall_impl; try eassumption.
      cbn; intros p Hp; unfold by_category; rewrite Hx, Hp; cbn; lia.
  - rewrite sort_insert_skip.
    + f_equal. rewrite sort_insert_skip.
      * f_equal. apply sort_insert_front.
        eapply Forall_impl; try eassumption.
        cbn; intros p Hp; unfold by_category; rewrite Hx, Hp; cbn; lia.
      * eapply Forall_impl; try eassumption.
        cbn; intros p Hp; unfold by_category; rewrite Hx, Hp; cbn; lia.
    + eapply Forall_impl; try eassumption.
      cbn; intros p Hp; unfold by_category; rewrite Hx, Hp; cbn; lia.
Qed.

(** [combineSelectedPresets] commits the product of the sorted presets for
    every selection: for the empty one that product is the identity. *)
Lemma combineSelectedPresets_eq (selectedPresets : list string)
    (prev : CameraState) :
  combineSelectedPresets selectedPresets prev
  = with_movementMatrix prev
      (toRows (multiply_all (sortedPresets selectedPresets))).
Proof. destruct selectedPresets; reflexivity. Qed.

(** C5, as the code has it.  The committed movement matrix is determined
    by the selected presets of each category taken in selection order: two
    selections that list the presets of every category in the same order
    commit the same matrix, however the categories are interleaved. *)
Theorem combineSelectedPresets_order (sel1 sel2 : list string)
    (prev : CameraState) :
  (forall c, of_category c (selectedPresetObjects sel1)
             = of_category c (selectedPresetObjects sel2)) ->
  sortedPresets sel1 = sortedPresets sel2
  /\ combineSelectedPresets sel1 prev = combineSelectedPresets sel2 prev.
Proof.
  intros H.
  assert (Hs : sortedPresets sel1 = sortedPresets sel2).
  { unfold sortedPresets. rewrite !Array_sort_by_category, !H. reflexivity. }
  split; [ exact Hs | ].
  rewrite !combineSelectedPresets_eq, Hs. reflexivity.
Qed.

Lemma combineSelectedPresets_order_example :
  combineSelectedPresets ["forward"; "yaw-left"] initialCameraState
  = combineSelectedPresets ["yaw-left"; "forward"] initialCameraState.
Proof.
  apply (@combineSelectedPresets_order
           ["forward"; "yaw-left"] ["yaw-left"; "forward"]
           initialCameraState).
  intros c. destruct c; reflexivity.
Defined.

(** C5 as stated fails for two rotation presets: selecting yaw-left before
    pitch-up and pitch-up before yaw-left gives the same set and two
    different matrices (cell [0][1] is [0.02 * 0.02] in one and [0] in the
    other). *)
Lemma combineSelectedPresets_order_matters :
  toggles ["yaw-left"; "pitch-up"] = ["yaw-left"; "pitch-up"]
  /\ toggles ["pitch-up"; "yaw-left"] = ["pitch-up"; "yaw-left"]
  /\ cell (movementMatrix
             (combineSelectedPresets ["yaw-left"; "pitch-up"]
                initialCameraState)) 0 1 = (0.02 * 0.02)%float
  /\ cell (movementMatrix
             (combineSelectedPresets ["pitch-up"; "yaw-left"]
                initialCameraState)) 0 1 = 0%float
  /\ movementMatrix
       (combineSelectedPresets ["yaw-left"; "pitch-up"] initialCameraState)
     <> movementMatrix
          (combineSelectedPresets ["pitch-up"; "yaw-left"]
             initialCameraState).
Proof.
  repeat (split; [ reflexivity | ]).
  intros H. apply (f_equal (fun m => num_eqb (cell m 0 1) 0)) in H.
  vm_compute in H. discriminate.
Qed.

(** C8.  For a non-empty selection the result matrix of the calculation
    display is the movement matrix the combine command commits for the
    same selection, and the presets shown are the sorted ones; for the
    empty selection the display renders nothing.  In both cases the
    committed matrix is the product of the sorted presets. *)
Theorem display_matches_combine (selectedPresets : list string)
    (prev : CameraState) :
  MatrixCalculationDisplay selectedPresets
  = match selectedPresets with
    | [] => None
    | _ :: _ =>
        Some (sortedPresets selectedPresets,
              movementMatrix (combineSelectedPresets selectedPresets prev))
    end
  /\ movementMatrix (combineSelectedPresets selectedPresets prev)
     = toRows (multiply_all (sortedPresets selectedPresets)).
Proof.
  split.
  - destruct selectedPresets as [ | presetId rest ]; reflexivity.
  - rewrite combineSelectedPresets_eq. reflexivity.
Qed.

(** ** Preset toggling *)

Lemma includes_In (l : list string) (x : string) :
  includes l x = true <-> In x l.
Proof.
  unfold includes. rewrite existsb_exists. split.
  - intros (y & Hy & Heq). apply String.eqb_eq in Heq. now subst.
  - intros H. exists x. split; [ exact H | apply String.eqb_refl ].
Qed.

Ltac catalog_cases a :=
  repeat match goal with
         | |- context [String.eqb ?s a] =>
             destruct (String.eqb_spec s a) as [<- | _]
         end.

(** In the catalog, [conflictsWith] is symmetric... *)
Lemma conflictsOf_sym (a b : string) :
  In b (conflictsOf a) -> In a (conflictsOf b).
Proof.
  unfold conflictsOf at 1, find_preset.
  cbn [MOVEMENT_PRESETS find id].
  catalog_cases a; cbn [conflictsWith];
    try (intros [<- | []]; vm_compute; left; reflexivity);
    intros [].
Qed.

(** ... and no preset lists itself. *)
Lemma conflictsOf_irrefl (a : string) : ~ In a (conflictsOf a).
Proof.
  unfold conflictsOf, find_preset.
  cbn [MOVEMENT_PRESETS find id].
  catalog_cases a; cbn [conflictsWith];
    try (intros [H | []]; discriminate H);
    intros [].
Qed.

Lemma find_preset_conflicts (presetId : string) (preset : MovementPreset) :
  find_preset presetId = Some preset ->
  conflictsOf presetId
  = match conflictsWith preset with Some c => c | None => [] end.
Proof. intros H. unfold conflictsOf. rewrite H. reflexivity. Qed.

(** What a toggle that selects [presetId] keeps of the old selection. *)
Lemma togglePreset_select (presetId : string) (preset : MovementPreset)
    (prev : list string) :
  find_preset presetId = Some preset ->
  includes prev presetId = false ->
  togglePreset presetId prev
  = filter (fun id' => negb (includes (conflictsOf presetId) id')) prev
    ++ [presetId].
Proof.
  intros Hf Hn. unfold togglePreset. rewrite Hf, Hn.
  rewrite (find_preset_conflicts _ Hf).
  destruct (conflictsWith preset) as [ conflicts | ]; [ reflexivity | ].
  f_equal. induction prev as [ | x prev IH ]; [ reflexivity | ].
  cbn in *. apply orb_false_elim in Hn. destruct Hn as [_ Hn].
  rewrite <- (IH Hn). reflexivity.
Qed.

Lemma togglePreset_deselect (presetId : string) (preset : MovementPreset)
    (prev : list string) :
  find_preset presetId = Some preset ->
  includes prev presetId = true ->
  togglePreset presetId prev
  = filter (fun id' => negb (String.eqb id' presetId)) prev.
Proof.
  intros Hf Hn. unfold togglePreset. rewrite Hf, Hn. reflexivity.
Qed.

Lemma togglePreset_ok (presetId : string) (prev : list string) :
  selection_ok prev -> selection_ok (togglePreset presetId prev).
Proof.
  intros [Hcat Hfree].
  destruct (find_preset presetId) as [ preset | ] eqn:Hf;
    [ | unfold togglePreset; rewrite Hf; now split ].
  destruct (includes prev presetId) eqn:Hin.
  - rewrite (togglePreset_deselect _ _ Hf Hin). split.
    + intros a Ha. apply filter_In in Ha. now apply Hcat.
    + intros a b Ha Hb. apply filter_In in Ha, Hb. now apply Hfree.
  - rewrite (togglePreset_select _ _ Hf Hin). split.
    + intros a Ha. apply in_app_or in Ha. destruct Ha as [Ha | [<- | []]].
      * apply filter_In in Ha. now apply Hcat.
      * congruence.
    + intros a b Ha Hb.
      apply in_app_or in Ha. apply in_app_or in Hb.
      destruct Ha as [Ha | [<- | []]]; destruct Hb as [Hb | [<- | []]].
      * apply filter_In in Ha, Hb. now apply Hfree.
      * apply filter_In in Ha. destruct Ha as [_ Ha].
        intros Hc. apply conflictsOf_sym in Hc.
        apply includes_In in Hc. rewrite Hc in Ha. discriminate.
      * apply filter_In in Hb. destruct Hb as [_ Hb].
        intros Hc. apply includes_In in Hc. rewrite Hc in Hb. discriminate.
      * apply conflictsOf_irrefl.
Qed.

Lemma fold_togglePreset_ok (presetIds selection : list string) :
  selection_ok selection ->
  selection_ok
    (fold_left (fun sel presetId => togglePreset presetId sel)
               presetIds selection).
Proof.
  revert selection.
  induction presetIds as [ | presetId presetIds IH ]; intros selection H.
  - exact H.
  - cbn [fold_left]. apply IH. now apply togglePreset_ok.
Qed.

Lemma toggles_ok (presetIds : list string) : selection_ok (toggles presetIds).
Proof.
  apply fold_togglePreset_ok. split; intros a; [ intros [] | intros b [] ].
Qed.

(** C6.  Starting from the empty selection, after any sequence of
    [togglePreset] calls no selected preset lists another selected preset
    in [conflictsWith]; toggling a selected preset removes it and nothing
    else; toggling forward and then backward leaves backward alone. *)
Theorem togglePreset_conflict_exclusive (presetIds : list string) :
  conflict_free (toggles presetIds)
  /\ (forall presetId,
        In presetId (toggles presetIds) ->
        togglePreset presetId (toggles presetIds)
        = filter (fun id' => negb (String.eqb id' presetId))
                 (toggles presetIds)
        /\ ~ In presetId (togglePreset presetId (toggles presetIds)))
  /\ toggles ["forward"; "backward"] = ["backward"].
Proof.
  destruct (toggles_ok presetIds) as [Hcat Hfree].
  split; [ exact Hfree | ]. split; [ | reflexivity ].
  intros presetId Hin.
  destruct (find_preset presetId) as [ preset | ] eqn:Hf;
    [ | now apply Hcat in Hin ].
  assert (Hsel : includes (toggles presetIds) presetId = true)
    by now apply includes_In.
  rewrite (togglePreset_deselect _ _ Hf Hsel). split; [ reflexivity | ].
  intros H. apply filter_In in H. destruct H as [_ H].
  rewrite String.eqb_refl in H. discriminate.
Qed.

(** * Further properties of the engine *)

(** Composer identity law: with nothing selected, the combine command
    commits the identity matrix, which is also what the product of no
    presets reads back as. *)
Theorem combineSelectedPresets_empty (prev : CameraState) :
  movementMatrix (combineSelectedPresets [] prev) = IDENTITY_MATRIX
  /\ toRows (multiply_all []) = IDENTITY_MATRIX.
Proof. split; reflexivity. Qed.

(** Forward and up combine, in either selection order, to the translation
    by [(0, 0.02, -0.02)], exactly. *)
Theorem combineSelectedPresets_forward_up (prev : CameraState) :
  movementMatrix (combineSelectedPresets ["forward"; "up"] prev)
  = translate 0 0.02 (-0.02)
  /\ movementMatrix (combineSelectedPresets ["up"; "forward"] prev)
     = translate 0 0.02 (-0.02).
Proof. split; reflexivity. Qed.

(** The sorted presets are the selected translations, then the selected
    rotations, then the selected complex presets, each group in selection
    order; ids that are not in the catalog do not appear. *)
Theorem sortedPresets_groups (selectedPresets : list string) :
  sortedPresets selectedPresets
  = of_category Category.translation (selectedPresetObjects selectedPresets)
    ++ of_category Category.rotation (selectedPresetObjects selectedPresets)
    ++ of_category Category.complex (selectedPresetObjects selectedPresets).
Proof. unfold sortedPresets. apply Array_sort_by_category. Qed.

(** A frame never writes the movement matrix, the boundaries, the initial
    pose or the animating flag. *)
Theorem useFrame_frame (L : THREE.Lib) (s : CameraState) :
  movementMatrix (animationStep L s) = movementMatrix s
  /\ boundaries (animationStep L s) = boundaries s
  /\ initialPosition (animationStep L s) = initialPosition s
  /\ initialRotation (animationStep L s) = initialRotation s
  /\ isAnimating (animationStep L s) = isAnimating s.
Proof.
  unfold animationStep, useFrame.
  destruct (isAnimating s) eqn:Ha; [ | rewrite Ha; auto ].
  destruct (shouldReset _ _); cbn; rewrite Ha; auto.
Qed.

(** * Further properties: the selection *)

Lemma filter_filter_comm (A : Type) (f g : A -> bool) (l : list A) :
  filter f (filter g l) = filter g (filter f l).
Proof.
  induction l as [ | x l IH ]; [ reflexivity | ].
  cbn. destruct (f x) eqn:Hf, (g x) eqn:Hg; cbn;
    rewrite ?Hf, ?Hg, IH; reflexivity.
Qed.

Lemma filter_filter_absorb (A : Type) (f g : A -> bool) (l : list A) :
  (forall x, In x l -> f x = true -> g x = true) ->
  filter f (filter g l) = filter f l.
Proof.
  induction l as [ | x l IH ]; intros H; [ reflexivity | ].
  cbn. destruct (f x) eqn:Hf.
  - rewrite (H x (or_introl eq_refl) Hf). cbn. rewrite Hf.
    f_equal. apply IH. intros y Hy. apply H. now right.
  - destruct (g x); cbn; rewrite ?Hf; apply IH;
      intros y Hy; apply H; now right.
Qed.

Lemma includes_filter (f : string -> bool) (l : list string) (x : string) :
  f x = true -> includes (filter f l) x = includes l x.
Proof.
  intros Hx. apply eq_true_iff_eq. rewrite !includes_In, filter_In.
  intuition.
Qed.

(** The presets a preset conflicts with have its category. *)
Lemma conflictsOf_category (c : Category.t) (p x : string) :
  In x (conflictsOf p) -> has_category c x = has_category c p.
Proof.
  unfold conflictsOf, find_preset.
  cbn [MOVEMENT_PRESETS find id].
  catalog_cases p; cbn [conflictsWith];
    try (intros [<- | []]; destruct c; reflexivity);
    intros [].
Qed.

Lemma find_preset_id (presetId : string) (preset : MovementPreset) :
  find_preset presetId = Some preset ->
  id preset = presetId /\ In preset MOVEMENT_PRESETS.
Proof.
  intros H. apply find_some in H. destruct H as [Hin Heq].
  apply String.eqb_eq in Heq. now split.
Qed.

(** Toggling acts on the selected ids of one category as toggling does on
    that sub-selection alone, and only when the toggled preset is of that
    category. *)
Lemma selected_of_togglePreset (c : Category.t) (p : string)
    (sel : list string) :
  selected_of c (togglePreset p sel)
  = if has_category c p then togglePreset p (selected_of c sel)
    else selected_of c sel.
Proof.
  unfold selected_of.
  destruct (find_preset p) as [ preset | ] eqn:Hf.
  2: { unfold togglePreset, has_category at 2. rewrite Hf. reflexivity. }
  destruct (has_category c p) eqn:Hc.
  - destruct (includes sel p) eqn:Hin.
    + rewrite (togglePreset_deselect _ _ Hf Hin).
      rewrite (togglePreset_deselect _ (filter (has_category c) sel) Hf)
        by now rewrite includes_filter.
      apply filter_filter_comm.
    + rewrite (togglePreset_select _ _ Hf Hin).
      rewrite (togglePreset_select _ (filter (has_category c) sel) Hf)
        by now rewrite includes_filter.
      rewrite filter_app. cbn. rewrite Hc. f_equal.
      apply filter_filter_comm.
  - destruct (includes sel p) eqn:Hin.
    + rewrite (togglePreset_deselect _ _ Hf Hin).
      apply filter_filter_absorb. intros x _ Hx.
      destruct (String.eqb_spec x p) as [-> | _]; [ congruence | reflexivity ].
    + rewrite (togglePreset_select _ _ Hf Hin).
      rewrite filter_app. cbn. rewrite Hc, app_nil_r.
      apply filter_filter_absorb. intros x _ Hx.
      destruct (includes (conflictsOf p) x) eqn:Hcx; [ | reflexivity ].
      apply includes_In in Hcx.
      rewrite (conflictsOf_category c _ _ Hcx) in Hx. congruence.
Qed.

Lemma selected_of_fold (c : Category.t) (presetIds sel : list string) :
  selected_of c
    (fold_left (fun s p => togglePreset p s) presetIds sel)
  = fold_left (fun s p => togglePreset p s)
      (filter (has_category c) presetIds) (selected_of c sel).
Proof.
  revert sel. induction presetIds as [ | p presetIds IH ]; intros sel.
  - reflexivity.
  - cbn [fold_left filter]. rewrite IH, selected_of_togglePreset.
    destruct (has_category c p); reflexivity.
Qed.

Lemma has_category_catalog_ids (c : Category.t) (p : string) :
  has_category c p = true -> In p (catalog_ids c).
Proof.
  unfold has_category. destruct (find_preset p) as [ preset | ] eqn:Hf;
    [ | discriminate ].
  intros Hc. destruct (find_preset_id _ Hf) as [<- Hin].
  unfold catalog_ids, of_category. apply in_map. apply filter_In. now split.
Qed.

Lemma selection_mem_In (l : list string) (E : list (list string)) :
  selection_mem l E = true <-> In l E.
Proof.
  unfold selection_mem, selection_eqb. rewrite existsb_exists. split.
  - intros (l' & Hin & Heq).
    destruct (list_eq_dec string_dec l l'); [ now subst | discriminate ].
  - intros H. exists l. split; [ exact H | ].
    destruct (list_eq_dec string_dec l l); [ reflexivity | contradiction ].
Qed.

Lemma reachable_of_closed (c : Category.t) :
  closedb (catalog_ids c) (reachable_of c) = true.
Proof. destruct c; vm_compute; reflexivity. Qed.

Lemma reachable_of_step (c : Category.t) (p : string) (sel : list string) :
  In p (catalog_ids c) ->
  In sel (reachable_of c) ->
  In (togglePreset p sel) (reachable_of c).
Proof.
  intros Hp Hsel.
  pose proof (reachable_of_closed c) as Hcl. unfold closedb in Hcl.
  rewrite forallb_forall in Hcl. pose proof (Hcl sel Hsel) as Hsel'.
  rewrite forallb_forall in Hsel'. apply selection_mem_In.
  exact (Hsel' p Hp).
Qed.

Lemma reachable_of_fold (c : Category.t) (presetIds sel : list string) :
  Forall (fun p => In p (catalog_ids c)) presetIds ->
  In sel (reachable_of c) ->
  In (fold_left (fun s p => togglePreset p s) presetIds sel)
     (reachable_of c).
Proof.
  intros Hall. revert sel.
  induction Hall as [ | p presetIds Hp _ IH ]; intros sel Hsel;
    [ exact Hsel | ].
  cbn [fold_left]. apply IH. exact (reachable_of_step c p sel Hp Hsel).
Qed.

(** The selected ids of one category always form one of the few
    selections listed in [reachable_of]. *)
Lemma selected_of_reachable (c : Category.t) (presetIds : list string) :
  In (selected_of c (toggles presetIds)) (reachable_of c).
Proof.
  unfold toggles. rewrite selected_of_fold. apply reachable_of_fold.
  - apply Forall_forall. intros p Hp. apply filter_In in Hp.
    apply has_category_catalog_ids. tauto.
  - destruct c; vm_compute; left; reflexivity.
Qed.

Lemma NoDup_snoc (A : Type) (l : list A) (x : A) :
  NoDup l -> ~ In x l -> NoDup (l ++ [x]).
Proof.
  induction 1 as [ | y l Hy Hnd IH ]; intros Hx; cbn.
  - constructor; [ intros [] | constructor ].
  - constructor.
    + intros H. apply in_app_or in H. destruct H as [H | [<- | []]].
      * contradiction.
      * apply Hx. now left.
    + apply IH. intros H. apply Hx. now right.
Qed.

Lemma togglePreset_NoDup (p : string) (sel : list string) :
  NoDup sel -> NoDup (togglePreset p sel).
Proof.
  intros Hnd.
  destruct (find_preset p) as [ preset | ] eqn:Hf;
    [ | unfold togglePreset; now rewrite Hf ].
  destruct (includes sel p) eqn:Hin.
  - rewrite (togglePreset_deselect _ _ Hf Hin). now apply NoDup_filter.
  - rewrite (togglePreset_select _ _ Hf Hin). apply NoDup_snoc.
    + now apply NoDup_filter.
    + intros H. apply filter_In in H. destruct H as [H _].
      apply includes_In in H. congruence.
Qed.

Lemma toggles_NoDup (presetIds : list string) : NoDup (toggles presetIds).
Proof.
  unfold toggles.
  assert (H : forall sel, NoDup sel ->
            NoDup (fold_left (fun s p => togglePreset p s) presetIds sel)).
  { induction presetIds as [ | p presetIds IH ]; intros sel Hsel;
      [ exact Hsel | ].
    cbn [fold_left]. apply IH. now apply togglePreset_NoDup. }
  apply H. constructor.
Qed.

Lemma selectedPresetObjects_length (sel : list string) :
  (forall a, In a sel -> find_preset a <> None) ->
  List.length (selectedPresetObjects sel) = List.length sel.
Proof.
  unfold selectedPresetObjects.
  induction sel as [ | a sel IH ]; intros H; [ reflexivity | ].
  cbn [map filter_Boolean List.length].
  destruct (find_preset a) eqn:Hf.
  - cbn [filter_Boolean List.length]. f_equal.
    apply IH. intros b Hb. apply H. now right.
  - exfalso. apply (H a); [ now left | exact Hf ].
Qed.

(** The selection never holds an id twice nor an id that is not in the
    catalog, so the composer resolves every selected id: the number of
    presets it multiplies is the number the Combine button shows. *)
Theorem toggles_selection_invariant (presetIds : list string) :
  NoDup (toggles presetIds)
  /\ (forall presetId,
        In presetId (toggles presetIds) ->
        exists preset,
          find_preset presetId = Some preset /\ id preset = presetId)
  /\ List.length (sortedPresets (toggles presetIds))
     = List.length (toggles presetIds).
Proof.
  destruct (toggles_ok presetIds) as [Hcat _].
  split; [ apply toggles_NoDup | ]. split.
  - intros presetId Hin.
    destruct (find_preset presetId) as [ preset | ] eqn:Hf;
      [ | now apply Hcat in Hin ].
    exists preset. split; [ reflexivity | ].
    now destruct (find_preset_id _ Hf).
  - unfold sortedPresets. rewrite Array_sort_by_category.
    rewrite <- (selectedPresetObjects_length _ Hcat).
    rewrite !length_app. unfold of_category.
    induction (selectedPresetObjects (toggles presetIds)) as [ | x l IH ];
      [ reflexivity | ].
    cbn [filter]. destruct (category x); cbn [CategoryDec.eqb List.length];
      lia.
Qed.

Lemma selected_of_partition (sel : list string) :
  (forall a, In a sel -> find_preset a <> None) ->
  List.length sel
  = (List.length (selected_of Category.translation sel)
     + List.length (selected_of Category.rotation sel)
     + List.length (selected_of Category.complex sel))%nat.
Proof.
  unfold selected_of.
  induction sel as [ | a sel IH ]; intros H; [ reflexivity | ].
  cbn [filter].
  destruct (find_preset a) as [ preset | ] eqn:Hf.
  - assert (IH' := IH (fun b Hb => H b (or_intror Hb))).
    assert (Hc : forall c,
               has_category c a = CategoryDec.eqb (category preset) c)
      by (intros c; unfold has_category; now rewrite Hf).
    rewrite !Hc.
    destruct (category preset); cbn [CategoryDec.eqb List.length]; lia.
  - exfalso. apply (H a); [ now left | exact Hf ].
Qed.

Lemma reachable_of_length (c : Category.t) :
  Forall (fun l => (List.length l <= match c with
                                     | Category.translation => 3
                                     | Category.rotation => 2
                                     | Category.complex => 1
                                     end)%nat) (reachable_of c).
Proof.
  apply Forall_forall. intros l Hl. revert l Hl. apply Forall_forall.
  destruct c; vm_compute; repeat (constructor; [ lia | ]); constructor.
Qed.

(** At most six presets are ever selected together: one per translation
    axis, one per rotation axis and the spiral. *)
Theorem toggles_at_most_six (presetIds : list string) :
  (List.length (toggles presetIds) <= 6)%nat
  /\ (List.length (selected_of Category.translation (toggles presetIds))
      <= 3)%nat
  /\ (List.length (selected_of Category.rotation (toggles presetIds))
      <= 2)%nat
  /\ (List.length (selected_of Category.complex (toggles presetIds))
      <= 1)%nat.
Proof.
  destruct (toggles_ok presetIds) as [Hcat _].
  pose proof (selected_of_partition _ Hcat) as Hlen.
  assert (H : forall c, (List.length (selected_of c (toggles presetIds))
                         <= match c with
                            | Category.translation => 3
                            | Category.rotation => 2
                            | Category.complex => 1
                            end)%nat).
  { intros c. pose proof (reachable_of_length c) as Hr.
    rewrite Forall_forall in Hr. apply Hr. apply selected_of_reachable. }
  pose proof (H Category.translation). pose proof (H Category.rotation).
  pose proof (H Category.complex). cbn in *. lia.
Qed.

(** * Further properties: the composer *)

Lemma selectedPresetObjects_selected_of (c : Category.t)
    (sel : list string) :
  of_category c (selectedPresetObjects sel)
  = selectedPresetObjects (selected_of c sel).
Proof.
  unfold selectedPresetObjects, selected_of, of_category.
  induction sel as [ | a sel IH ]; [ reflexivity | ].
  cbn [map filter_Boolean filter]. unfold has_category at 1.
  destruct (find_preset a) as [ preset | ] eqn:Hf.
  - cbn [filter]. destruct (CategoryDec.eqb (category preset) c);
      cbn [map filter_Boolean]; rewrite ?Hf, IH; reflexivity.
  - exact IH.
Qed.

Lemma catalog_ids_has_category (c : Category.t) (x : string) :
  In x (catalog_ids c) -> has_category c x = true.
Proof.
  destruct c; cbn; intros H;
    repeat (destruct H as [<- | H]; [ reflexivity | ]); destruct H.
Qed.

Lemma Matrix4_eqb_eq (a b : THREE.Matrix4) :
  Matrix4_eqb a b = true -> a = b.
Proof.
  destruct a, b. unfold Matrix4_eqb.
  cbn [THREE.toArray combine forallb fst snd
       THREE.e0 THREE.e1 THREE.e2 THREE.e3 THREE.e4 THREE.e5 THREE.e6
       THREE.e7 THREE.e8 THREE.e9 THREE.e10 THREE.e11 THREE.e12 THREE.e13
       THREE.e14 THREE.e15].
  intros H.
  repeat match type of H with
         | (_ && _)%bool = true =>
             let E := fresh "E" in
             apply andb_prop in H; destruct H as [E H];
             apply FloatAxioms.Leibniz.eqb_spec in E; subst
         end.
  reflexivity.
Qed.

(** The product of the selected translations is the same in every order
    in which they can have been selected. *)
Lemma translation_products (l : list string) :
  In l (reachable_of Category.translation) ->
  multiply_all (selectedPresetObjects l)
  = multiply_all (selectedPresetObjects (catalog_order l)).
Proof.
  assert (H : forallb
                (fun l =>
                   Matrix4_eqb
                     (multiply_all (selectedPresetObjects l))
                     (multiply_all (selectedPresetObjects (catalog_order l))))
                (reachable_of Category.translation) = true)
    by (vm_compute; reflexivity).
  rewrite forallb_forall in H. intros Hl. apply Matrix4_eqb_eq.
  exact (H l Hl).
Qed.

Lemma catalog_order_ext (l1 l2 : list string) :
  (forall x, has_category Category.translation x = true ->
             In x l1 <-> In x l2) ->
  catalog_order l1 = catalog_order l2.
Proof.
  intros H. unfold catalog_order. apply filter_ext_in. intros x Hx.
  apply catalog_ids_has_category in Hx.
  apply eq_true_iff_eq. rewrite !includes_In. now apply H.
Qed.

Lemma multiply_all_app (l1 l2 : list MovementPreset) :
  multiply_all (l1 ++ l2)
  = fold_left
      (fun acc preset =>
         THREE.multiply acc (fromRows (preset_matrix preset)))
      l2 (multiply_all l1).
Proof. unfold multiply_all. apply fold_left_app. Qed.

(** Among selections made by toggling, the order in which translation
    presets were selected does not matter: two selections with the same
    translation presets, and the same rotation and complex presets in
    the same order, commit the same movement matrix. *)
Theorem combineSelectedPresets_translation_order (ids1 ids2 : list string)
    (prev : CameraState) :
  (forall x, has_category Category.translation x = true ->
             In x (toggles ids1) <-> In x (toggles ids2)) ->
  selected_of Category.rotation (toggles ids1)
  = selected_of Category.rotation (toggles ids2) ->
  selected_of Category.complex (toggles ids1)
  = selected_of Category.complex (toggles ids2) ->
  combineSelectedPresets (toggles ids1) prev
  = combineSelectedPresets (toggles ids2) prev.
Proof.
  intros HT HR HC.
  assert (Hprod :
            multiply_all
              (selectedPresetObjects
                 (selected_of Category.translation (toggles ids1)))
            = multiply_all
                (selectedPresetObjects
                   (selected_of Category.translation (toggles ids2)))).
  { rewrite (translation_products
               (selected_of_reachable Category.translation ids1)).
    rewrite (translation_products
               (selected_of_reachable Category.translation ids2)).
    f_equal. f_equal. apply catalog_order_ext. intros x Hx.
    unfold selected_of. rewrite !filter_In. specialize (HT x Hx). tauto. }
  rewrite !combineSelectedPresets_eq. f_equal. f_equal.
  unfold sortedPresets. rewrite !Array_sort_by_category.
  rewrite !selectedPresetObjects_selected_of, !multiply_all_app.
  rewrite Hprod, HR, HC. reflexivity.
Qed.

Lemma combineSelectedPresets_translation_order_example :
  toggles ["forward"; "up"; "yaw-left"] = ["forward"; "up"; "yaw-left"]
  /\ toggles ["yaw-left"; "up"; "forward"] = ["yaw-left"; "up"; "forward"]
  /\ combineSelectedPresets (toggles ["forward"; "up"; "yaw-left"])
       initialCameraState
     = combineSelectedPresets (toggles ["yaw-left"; "up"; "forward"])
         initialCameraState.
Proof.
  split; [ reflexivity | ]. split; [ reflexivity | ].
  apply (@combineSelectedPresets_translation_order
           ["forward"; "up"; "yaw-left"] ["yaw-left"; "up"; "forward"]
           initialCameraState).
  - intros x _.
    change (toggles ["forward"; "up"; "yaw-left"])
      with ["forward"; "up"; "yaw-left"].
    change (toggles ["yaw-left"; "up"; "forward"])
      with ["yaw-left"; "up"; "forward"].
    cbn [In]. tauto.
  - reflexivity.
  - reflexivity.
Defined.

Lemma selectedPresetObjects_known (sel : list string) :
  selectedPresetObjects (filter known sel) = selectedPresetObjects sel.
Proof.
  unfold selectedPresetObjects, known.
  induction sel as [ | a sel IH ]; [ reflexivity | ].
  cbn [filter map filter_Boolean].
  destruct (find_preset a) eqn:Hf;
    cbn [map filter_Boolean]; rewrite ?Hf, IH; reflexivity.
Qed.

(** Ids that are not in the catalog are ignored by the combine command:
    it commits what it commits for the selection without them, and the
    identity when no selected id is in the catalog. *)
Theorem combineSelectedPresets_ignores_unknown (sel : list string)
    (prev : CameraState) :
  combineSelectedPresets sel prev
  = combineSelectedPresets (filter known sel) prev
  /\ (filter known sel = [] ->
      combineSelectedPresets sel prev
      = with_movementMatrix prev IDENTITY_MATRIX).
Proof.
  assert (H : combineSelectedPresets sel prev
              = combineSelectedPresets (filter known sel) prev).
  { rewrite !combineSelectedPresets_eq. unfold sortedPresets.
    rewrite selectedPresetObjects_known. reflexivity. }
  split; [ exact H | ].
  intros Hnone. rewrite H, Hnone. reflexivity.
Qed.

Lemma togglePreset_append (p : string) (sel : list string) :
  find_preset p <> None ->
  ~ In p sel ->
  (forall x, In x sel -> ~ In x (conflictsOf p)) ->
  togglePreset p sel = sel ++ [p].
Proof.
  intros Hf Hp Hc.
  destruct (find_preset p) as [ preset | ] eqn:Hfind; [ clear Hf | congruence ].
  assert (Hout : includes sel p = false).
  { destruct (includes sel p) eqn:H; [ | reflexivity ].
    apply includes_In in H. contradiction. }
  rewrite (togglePreset_select _ _ Hfind Hout). f_equal.
  clear Hout. induction sel as [ | x sel IH ]; [ reflexivity | ].
  cbn [filter].
  assert (Hx : includes (conflictsOf p) x = false).
  { destruct (includes (conflictsOf p) x) eqn:H; [ | reflexivity ].
    apply includes_In in H. exfalso. apply (Hc x); [ now left | exact H ]. }
  rewrite Hx. cbn [negb]. f_equal. apply IH.
  - intros H. apply Hp. now right.
  - intros y Hy. apply Hc. now right.
Qed.

(** Toggling a preset on and off again restores the selection, provided
    it was not selected and none of its conflicts was. *)
Theorem togglePreset_twice_restores (p : string) (sel : list string) :
  find_preset p <> None ->
  ~ In p sel ->
  (forall x, In x sel -> ~ In x (conflictsOf p)) ->
  togglePreset p sel = sel ++ [p]
  /\ togglePreset p (togglePreset p sel) = sel.
Proof.
  intros Hf Hp Hc.
  pose proof (@togglePreset_append p sel Hf Hp Hc) as Hfirst.
  split; [ exact Hfirst | ].
  destruct (find_preset p) as [ preset | ] eqn:Hfind; [ | congruence ].
  rewrite Hfirst.
  rewrite (togglePreset_deselect _ (sel ++ [p]) Hfind).
  - rewrite filter_app. cbn [filter]. rewrite String.eqb_refl. cbn [negb].
    rewrite app_nil_r.
    clear Hfirst Hc Hf. induction sel as [ | x sel IH ]; [ reflexivity | ].
    cbn [filter]. destruct (String.eqb_spec x p) as [-> | _].
    + exfalso. apply Hp. now left.
    + cbn [negb]. f_equal. apply IH. intros H. apply Hp. now right.
  - apply includes_In, in_or_app. right. now left.
Qed.

Lemma togglePreset_twice_restores_example :
  togglePreset "up" ["forward"] = ["forward"; "up"]
  /\ togglePreset "up" (togglePreset "up" ["forward"]) = ["forward"].
Proof.
  apply (@togglePreset_twice_restores "up" ["forward"]).
  - discriminate.
  - intros [H | []]. discriminate H.
  - intros x [<- | []] [H | []]. discriminate H.
Defined.

(** Deselecting a selected preset and selecting it again moves it to the
    end of the selection order and leaves the other presets in place. *)
Theorem togglePreset_twice_moves_last (presetIds : list string)
    (p : string) :
  In p (toggles presetIds) ->
  togglePreset p (togglePreset p (toggles presetIds))
  = filter (fun id' => negb (String.eqb id' p)) (toggles presetIds) ++ [p].
Proof.
  intros Hin. destruct (toggles_ok presetIds) as [Hcat Hfree].
  set (sel := toggles presetIds) in *.
  destruct (find_preset p) as [ preset | ] eqn:Hf;
    [ | now apply Hcat in Hin ].
  assert (Hsel : includes sel p = true) by now apply includes_In.
  rewrite (togglePreset_deselect _ _ Hf Hsel).
  set (rest := filter (fun id' => negb (String.eqb id' p)) sel).
  assert (Hrest : forall x, In x rest -> In x sel /\ x <> p).
  { intros x Hx. apply filter_In in Hx. destruct Hx as [Hx Hne].
    split; [ exact Hx | ]. intros ->. rewrite String.eqb_refl in Hne.
    discriminate. }
  apply togglePreset_append.
  - congruence.
  - intros H. apply Hrest in H. tauto.
  - intros x Hx. apply Hrest in Hx. destruct Hx as [Hx _].
    intros Hc. apply conflictsOf_sym in Hc. exact (Hfree x p Hx Hin Hc).
Qed.

Lemma togglePreset_twice_moves_last_example :
  toggles ["forward"; "up"] = ["forward"; "up"]
  /\ togglePreset "forward"
       (togglePreset "forward" (toggles ["forward"; "up"]))
     = ["up"; "forward"].
Proof.
  split; [ reflexivity | ].
  apply (@togglePreset_twice_moves_last ["forward"; "up"] "forward").
  left. reflexivity.
Defined.

(** Lookup by id is exact: what [find_preset] returns carries the id asked
    for, and every preset of the catalog is found under its own id. *)
Theorem find_preset_round_trip :
  (forall presetId preset,
     find_preset presetId = Some preset ->
     id preset = presetId /\ In preset MOVEMENT_PRESETS)
  /\ (forall preset,
        In preset MOVEMENT_PRESETS -> find_preset (id preset) = Some preset).
Proof.
  split.
  - intros presetId preset H. now apply find_preset_id.
  - intros preset H. cbn in H.
    repeat (destruct H as [<- | H]; [ reflexivity | ]). destruct H.
Qed.

(** * Further properties: frames and edits *)

(** The two conversions between rows and [Matrix4] undo each other:
    writing rows with [set] and reading them back through [toArray] at
    indices 0, 4, 8, 12, ... introduces no transposition. *)
Theorem rows_round_trip :
  (forall rows : matrix, toRows (fromRows rows) = rows)
  /\ (forall m : THREE.Matrix4, fromRows (toRows m) = m).
Proof.
  split.
  - intros [[[[[[a b] c] d] [[[e f] g] h]] [[[i j] k] l]] [[[m n] o] p]].
    reflexivity.
  - intros []. reflexivity.
Qed.

Lemma restored_idem (s : CameraState) : restored (restored s) = restored s.
Proof. destruct s. reflexivity. Qed.

Lemma frames_S (L : THREE.Lib) (n : nat) (s : CameraState) :
  frames L (S n) s = animationStep L (frames L n s).
Proof. reflexivity. Qed.

(** Once a frame has found the next position out of bounds, every later
    frame finds the same: the camera stays at the initial pose for as
    long as the animation runs, and the transform matrix never changes. *)
Theorem frames_after_reset (L : THREE.Lib) (s : CameraState) (n : nat) :
  isAnimating s = true ->
  shouldReset (THREE.decompose_position (nextMatrix s)) (boundaries s) = true ->
  frames L (S n) s = restored s
  /\ transformMatrix (frames L (S n) s) = transformMatrix s.
Proof.
  intros Ha Hr.
  assert (H : frames L (S n) s = restored s).
  { induction n as [ | n IH ].
    - apply useFrame_reset; assumption.
    - rewrite frames_S, IH. rewrite <- (restored_idem s) at 2.
      apply useFrame_reset; [ exact Ha | exact Hr ]. }
  rewrite H. split; reflexivity.
Qed.

Lemma frames_after_reset_example :
  frames unrotated 5 leavingState = restored leavingState
  /\ transformMatrix (frames unrotated 5 leavingState) = translate 8 2 0.
Proof.
  apply (@frames_after_reset unrotated leavingState 4); reflexivity.
Defined.

Lemma animationStep_keeps (L : THREE.Lib) (s : CameraState) :
  initialPosition (animationStep L s) = initialPosition s
  /\ initialRotation (animationStep L s) = initialRotation s
  /\ isAnimating (animationStep L s) = isAnimating s.
Proof.
  unfold animationStep, useFrame.
  destruct (isAnimating s) eqn:Ha; [ | rewrite Ha; auto ].
  destruct (shouldReset _ _); cbn; rewrite Ha; auto.
Qed.

Lemma frames_keep (L : THREE.Lib) (n : nat) (s : CameraState) :
  initialPosition (frames L n s) = initialPosition s
  /\ initialRotation (frames L n s) = initialRotation s
  /\ isAnimating (frames L n s) = isAnimating s.
Proof.
  induction n as [ | n (IHp & IHr & IHa) ]; [ auto | ].
  rewrite frames_S.
  destruct (animationStep_keeps L (frames L n s)) as (Hp & Hr & Ha).
  rewrite Hp, Hr, Ha. auto.
Qed.

Lemma resetCamera_final (L : THREE.Lib) (s : CameraState) :
  position (settle (resetCamera L s) s) = initialPosition s
  /\ rotation (settle (resetCamera L s) s) = initialRotation s
  /\ isAnimating (settle (resetCamera L s) s) = false
  /\ transformMatrix (settle (resetCamera L s) s)
     = compose L (initialPosition s) (initialRotation s).
Proof. destruct s. cbn. auto. Qed.

(** Set Initial, then any number of frames, then Reset: the camera is
    back at the pose it had when Set Initial was pressed, stopped, with
    the transform matrix composed from that pose. *)
Theorem setInitialPosition_then_resetCamera (L : THREE.Lib)
    (s : CameraState) (n : nat) :
  let marked := settle setInitialPosition s in
  let moved := frames L n marked in
  let final := settle (resetCamera L moved) moved in
  position final = position s
  /\ rotation final = rotation s
  /\ isAnimating final = false
  /\ transformMatrix final = compose L (position s) (rotation s).
Proof.
  intros marked moved final.
  destruct (frames_keep L n marked) as (Hp & Hr & _).
  fold moved in Hp, Hr.
  destruct (resetCamera_final L moved) as (Fp & Fr & Fa & Fm).
  fold final in Fp, Fr, Fa, Fm.
  rewrite Fp, Fr, Fa, Fm, Hp, Hr. unfold marked.
  cbn [settle setInitialPosition later now initialPosition initialRotation
       with_initial].
  auto.
Qed.

(** While the animation is off, frames change nothing, however many. *)
Theorem frames_paused (L : THREE.Lib) (s : CameraState) (n : nat) :
  isAnimating s = false -> frames L n s = s.
Proof.
  intros Ha. induction n as [ | n IH ]; [ reflexivity | ].
  rewrite frames_S, IH. unfold animationStep, useFrame. now rewrite Ha.
Qed.

Lemma frames_paused_example :
  frames unrotated 3 initialCameraState = initialCameraState.
Proof. apply (@frames_paused unrotated initialCameraState 3). reflexivity. Defined.

Lemma translation_column_toRows (m : THREE.Matrix4) :
  translation_column (toRows m) = THREE.decompose_position m.
Proof. destruct m. reflexivity. Qed.

(** A frame that commits leaves the position equal, bit for bit, to the
    translation column of the matrix it commits. *)
Theorem useFrame_commit_position (L : THREE.Lib) (s : CameraState) :
  isAnimating s = true ->
  shouldReset (THREE.decompose_position (nextMatrix s)) (boundaries s)
  = false ->
  position (animationStep L s)
  = translation_column (transformMatrix (animationStep L s)).
Proof.
  intros Ha Hr. rewrite (useFrame_commit L s Ha Hr).
  cbn [position transformMatrix with_transformMatrix with_rotation
       with_position].
  symmetry. apply translation_column_toRows.
Qed.

Lemma useFrame_commit_position_example :
  position (animationStep unrotated touchingState)
  = translation_column (transformMatrix (animationStep unrotated touchingState)).
Proof.
  apply (@useFrame_commit_position unrotated touchingState); reflexivity.
Defined.

Lemma cell_mset (m : matrix) (i j i' j' : nat) (v : float) :
  (i < 4)%nat -> (j < 4)%nat -> (i' < 4)%nat -> (j' < 4)%nat ->
  cell (mset m i j v) i' j'
  = if (i' =? i)%nat && (j' =? j)%nat then v else cell m i' j'.
Proof.
  intros Hi Hj Hi' Hj'.
  destruct m as [[[[[[a b] c] d] [[[e f] g] h]] [[[k l] o] p]] [[[q r] t] u]].
  destruct i as [ | [ | [ | [ | i ] ] ] ]; try lia;
    destruct j as [ | [ | [ | [ | j ] ] ] ]; try lia;
    destruct i' as [ | [ | [ | [ | i' ] ] ] ]; try lia;
    destruct j' as [ | [ | [ | [ | j' ] ] ] ]; try lia;
    reflexivity.
Qed.

(** A number entered in a movement-matrix cell is stored in that cell and
    nowhere else, whether or not the animation is running; every other
    field of the state is left alone. *)
Theorem movementMatrix_input_cell (s : CameraState) (i j i' j' : nat)
    (numValue : float) :
  is_nan numValue = false ->
  (i < 4)%nat -> (j < 4)%nat -> (i' < 4)%nat -> (j' < 4)%nat ->
  let s' := settle_opt (movementMatrix_input s i j numValue) s in
  cell (movementMatrix s') i' j'
  = (if (i' =? i)%nat && (j' =? j)%nat then numValue
     else cell (movementMatrix s) i' j')
  /\ s' = with_movementMatrix s (movementMatrix s').
Proof.
  intros Hnum Hi Hj Hi' Hj' s'.
  assert (Hs : s' = with_movementMatrix s
                      (mset (movementMatrix s) i j numValue)).
  { unfold s', movementMatrix_input, NumberInput, handleBlur.
    rewrite Hnum. reflexivity. }
  rewrite Hs. cbn [movementMatrix with_movementMatrix].
  split; [ now apply cell_mset | reflexivity ].
Qed.

Lemma movementMatrix_input_cell_example :
  cell (movementMatrix
          (settle_opt (movementMatrix_input leavingState 2 3 0.25)
                      leavingState)) 2 3 = 0.25%float
  /\ cell (movementMatrix
             (settle_opt (movementMatrix_input leavingState 2 3 0.25)
                         leavingState)) 0 3 = 0.5%float.
Proof.
  split.
  - apply (@movementMatrix_input_cell leavingState 2 3 2 3 0.25);
      try reflexivity; lia.
  - apply (@movementMatrix_input_cell leavingState 2 3 0 3 0.25);
      try reflexivity; lia.
Defined.

(** An entry that does not parse to a number changes nothing, in any of
    the six groups of inputs and whether or not the animation runs. *)
Theorem nan_entry_ignored (L : THREE.Lib) (s : CameraState) (i j : nat)
    (numValue : float) :
  is_nan numValue = true ->
  settle_opt (position_input L s i numValue) s = s
  /\ settle_opt (rotation_input L s i numValue) s = s
  /\ settle_opt (transformMatrix_input L s i j numValue) s = s
  /\ settle_opt (movementMatrix_input s i j numValue) s = s
  /\ settle_opt (min_input s i numValue) s = s
  /\ settle_opt (max_input s i numValue) s = s.
Proof.
  intros Hnan.
  unfold position_input, rotation_input, transformMatrix_input,
    movementMatrix_input, min_input, max_input, NumberInput, handleBlur.
  rewrite Hnan. destruct (isAnimating s); cbn [settle_opt]; auto 7.
Qed.

Lemma nan_entry_ignored_example :
  settle_opt (movementMatrix_input initialCameraState 0 0 nan)
             initialCameraState = initialCameraState.
Proof.
  destruct (@nan_entry_ignored unrotated initialCameraState 0 0 nan)
    as (_ & _ & _ & H & _).
  - reflexivity.
  - exact H.
Defined.

(** After Reset the camera stays where Reset put it: the animation is
    off, so no number of frames moves it. *)
Theorem resetCamera_then_frames (L : THREE.Lib) (s : CameraState)
    (n : nat) :
  frames L n (settle (resetCamera L s) s) = settle (resetCamera L s) s.
Proof.
  induction n as [ | n IH ]; [ reflexivity | ].
  rewrite frames_S, IH. unfold animationStep, useFrame.
  destruct (resetCamera_final L s) as (_ & _ & Ha & _). now rewrite Ha.
Qed.

(** The matrix written after a position edit is composed from the pose
    before that edit: after two edits in a row the position holds both
    and the transform matrix only the first. *)
Theorem position_edits_one_behind (L : THREE.Lib) (s : CameraState)
    (i1 i2 : nat) (v1 v2 : float) :
  let s1 := settle (position_onChange L s i1 v1) s in
  let s2 := settle (position_onChange L s1 i2 v2) s1 in
  position s2 = vset (vset (position s) i1 v1) i2 v2
  /\ transformMatrix s1 = compose L (position s) (rotation s)
  /\ transformMatrix s2 = compose L (vset (position s) i1 v1) (rotation s).
Proof.
  intros s1 s2. unfold s2, s1.
  rewrite !position_onChange_settle.
  cbn [position rotation transformMatrix with_transformMatrix with_position].
  auto.
Qed.

Lemma vget_vset (v : vec3) (i i' : nat) (x : float) :
  (i < 3)%nat -> (i' < 3)%nat ->
  vget (vset v i x) i' = if (i' =? i)%nat then x else vget v i'.
Proof.
  intros Hi Hi'. destruct v as [[a b] c].
  destruct i as [ | [ | [ | i ] ] ]; try lia;
    destruct i' as [ | [ | [ | i' ] ] ]; try lia; reflexivity.
Qed.

(** A number entered for a bound of the box replaces that coordinate of
    that corner only; the other corner and every other field stay, and
    the edit is accepted while the animation runs. *)
Theorem boundary_input_coordinate (s : CameraState) (i i' : nat)
    (numValue : float) :
  is_nan numValue = false ->
  (i < 3)%nat -> (i' < 3)%nat ->
  let lo := settle_opt (min_input s i numValue) s in
  let hi := settle_opt (max_input s i numValue) s in
  vget (min (boundaries lo)) i'
  = (if (i' =? i)%nat then numValue else vget (min (boundaries s)) i')
  /\ max (boundaries lo) = max (boundaries s)
  /\ lo = with_boundaries s (boundaries lo)
  /\ vget (max (boundaries hi)) i'
     = (if (i' =? i)%nat then numValue else vget (max (boundaries s)) i')
  /\ min (boundaries hi) = min (boundaries s)
  /\ hi = with_boundaries s (boundaries hi).
Proof.
  intros Hnum Hi Hi' lo hi.
  unfold lo, hi, min_input, max_input, NumberInput, handleBlur.
  rewrite Hnum.
  cbn [settle_opt settle min_onChange max_onChange later now boundaries
       with_boundaries min max].
  rewrite !vget_vset by assumption. auto 7.
Qed.

Lemma boundary_input_coordinate_example :
  vget (min (boundaries (settle_opt (min_input leavingState 1 1.5)
                                    leavingState))) 1 = 1.5%float
  /\ max (boundaries (settle_opt (min_input leavingState 1 1.5)
                                 leavingState)) = (8, 6, 8)%float.
Proof.
  destruct (@boundary_input_coordinate leavingState 1 1 1.5)
    as (H1 & H2 & _); try reflexivity; try lia.
  split; [ exact H1 | exact H2 ].
Defined.
